(** * Travel-Planner-Voice-Agent: the two React clients, the voice recorder
      and the message formatter.

    The development embeds the TypeScript sources shallowly: component state
    is a record, an event handler is a function from the state before the
    event and the answers of the outside world (server, browser, clock) to the
    state after it; exceptions are a sum type; JavaScript strings that are
    inspected character by character are lists of UTF-16 code units; an
    object parsed from JSON is its property lookup. *)

From Stdlib Require Import List Bool Arith ZArith NArith QArith Lia.
From Stdlib Require Import Strings.String Strings.Ascii Numbers.DecimalString.
Import ListNotations.
Close Scope Q_scope.

(** ** JavaScript conventions shared by the clients *)

Module Js.

Open Scope string_scope.

(** The result of an expression that may throw: [Throw m] carries the
    message of the [Error]. *)
Inductive Result (A : Type) : Type :=
| Ok (a : A)
| Throw (message : string).
Arguments Ok {A} a.
Arguments Throw {A} message.

(** A promise seen from the code that awaits it: it settles, resolved or
    rejected, or it is never settled. *)
Inductive Promise (A : Type) : Type :=
| Settled (r : Result A)
| Pending.
Arguments Settled {A} r.
Arguments Pending {A}.

Definition bind {A B : Type} (r : Result A) (k : A -> Result B) : Result B :=
  match r with
  | Ok a => k a
  | Throw m => Throw m
  end.

(** Truthiness of a string: only the empty string is falsy. *)
Definition truthy (s : string) : bool :=
  match s with
  | EmptyString => false
  | String _ _ => true
  end.

(** Truthiness of [string | null | undefined]. *)
Definition truthyOpt (s : option string) : bool :=
  match s with
  | Some s => truthy s
  | None => false
  end.

(** [a || b] on possibly missing strings. *)
Definition orElse (a b : option string) : option string :=
  if truthyOpt a then a else b.

(** [a || ''] at the end of a chain of [||]. *)
Definition orEmpty (a : option string) : string :=
  match a with
  | Some s => if truthy s then s else ""
  | None => ""
  end.

(** Template interpolation of a non-negative integer. *)
Definition showNat (n : nat) : string :=
  NilEmpty.string_of_uint (Nat.to_uint n).

(** [Date] values are milliseconds since the epoch. *)
Definition Date := nat.

(** Assignment to the element [i] of an array held by reference: the
    element becomes [f] of what it was; an index past the end changes
    nothing. *)
Fixpoint update {A : Type} (i : nat) (f : A -> A) (l : list A) {struct l}
  : list A :=
  match l, i with
  | [], _ => []
  | x :: l', 0 => f x :: l'
  | x :: l', S i' => x :: update i' f l'
  end.

End Js.

(** ** The text client: [frontend/src] *)

Module TextFrontend.

Import Js.
Open Scope string_scope.

(** *** [types.ts] *)

Record Location := {
  lat : Q;
  lon : Q
}.

Record Activity := {
  activity_id : option string;
  name : string;
  start_time : option string;
  end_time : option string;
  duration_minutes : option Z;
  travel_from_previous : option Z;
  category : option string;
  type : option string;
  description : option string;
  location : option Location
}.

Record DayItinerary := {
  date : option string;
  morning : list Activity;
  afternoon : list Activity;
  evening : list Activity
}.

Record Itinerary := {
  day_1 : option DayItinerary;
  day_2 : option DayItinerary;
  day_3 : option DayItinerary
}.

Record Source := {
  url : option string;
  source : option string;
  section : option string;
  activities : option (list string);
  title : option string
}.

Inductive Role := user | assistant.

Record Message := {
  role : Role;
  content : string;
  timestamp : option Date
}.

(** [ApiResponse]; [tool_calls] and [usage] are never read by the client. *)
Record ApiResponse := {
  api_status : string;
  api_response : string;
  api_itinerary : option Itinerary;
  api_sources : option (list Source);
  api_session_id : option string;
  api_error : option string
}.

(** *** [mockData.ts] *)

Definition mockItinerary : Itinerary := {|
  day_1 := Some {|
    date := Some "2024-01-15";
    morning := [
      {| activity_id := Some "osm_12345";
         name := "Amber Fort";
         start_time := Some "09:00";
         end_time := Some "12:00";
         duration_minutes := Some 180%Z;
         travel_from_previous := Some 0%Z;
         category := Some "cultural";
         type := Some "History";
         description := Some "Historic fort with stunning architecture and panoramic views of the city. A UNESCO World Heritage site.";
         location := Some {| lat := (269855 # 10000)%Q; lon := (758513 # 10000)%Q |} |}
    ];
    afternoon := [
      {| activity_id := Some "osm_12346";
         name := "Jal Mahal";
         start_time := Some "14:00";
         end_time := Some "15:30";
         duration_minutes := Some 90%Z;
         travel_from_previous := Some 30%Z;
         category := Some "sightseeing";
         type := Some "Sightseeing";
         description := Some "Beautiful water palace located in the middle of Man Sagar Lake. Perfect for photography.";
         location := Some {| lat := (269535 # 10000)%Q; lon := (758465 # 10000)%Q |} |}
    ];
    evening := [
      {| activity_id := Some "osm_12347";
         name := "Chokhi Dhani";
         start_time := Some "18:00";
         end_time := Some "21:00";
         duration_minutes := Some 180%Z;
         travel_from_previous := Some 20%Z;
         category := Some "food";
         type := Some "Cultural Experience";
         description := Some "Traditional Rajasthani village resort with authentic food and cultural performances.";
         location := Some {| lat := (269124 # 10000)%Q; lon := (757873 # 10000)%Q |} |}
    ]
  |};
  day_2 := Some {|
    date := Some "2024-01-16";
    morning := [
      {| activity_id := Some "osm_12348";
         name := "City Palace";
         start_time := Some "09:30";
         end_time := Some "12:00";
         duration_minutes := Some 150%Z;
         travel_from_previous := Some 0%Z;
         category := Some "cultural";
         type := Some "History";
         description := Some "The royal residence of the Maharaja of Jaipur, featuring beautiful courtyards and museums.";
         location := Some {| lat := (269258 # 10000)%Q; lon := (758236 # 10000)%Q |} |}
    ];
    afternoon := [
      {| activity_id := Some "osm_12349";
         name := "Jantar Mantar";
         start_time := Some "14:00";
         end_time := Some "15:30";
         duration_minutes := Some 90%Z;
         travel_from_previous := Some 5%Z;
         category := Some "cultural";
         type := Some "History";
         description := Some "An astronomical observatory with ancient instruments for measuring time and celestial positions.";
         location := Some {| lat := (269247 # 10000)%Q; lon := (758246 # 10000)%Q |} |}
    ];
    evening := []
  |};
  day_3 := None
|}.

Definition mockSources : list Source := [
  {| url := Some "https://en.wikivoyage.org/wiki/Jaipur#See";
     source := Some "Wikivoyage";
     section := Some "See";
     activities := Some ["City Palace"; "Jantar Mantar"; "Amber Fort"];
     title := None |};
  {| url := Some "https://www.openstreetmap.org/node/12345";
     source := Some "OpenStreetMap";
     section := Some "Points of Interest";
     activities := Some ["Jal Mahal"];
     title := None |}
].

(** *** [App.tsx]: the state of [App] and [sendMessage] *)

Record AppState := {
  messages : list Message;
  itinerary : option Itinerary;
  sources : list Source;
  isLoading : bool;
  sessionId : option string;
  useMockData : bool
}.

(** What [fetch('/api/trip/chat')] followed by [response.json()] yields. *)
Inductive FetchOutcome :=
| FetchRejected (message : string)
| HttpStatus (status : nat)
| JsonBody (data : ApiResponse).

(** The outside world of one call of [sendMessage]: the two readings of the
    clock and the server, a function of the posted [message] and
    [session_id]. *)
Record TurnEnv := {
  now_user : Date;
  now_reply : Date;
  chat : string -> option string -> FetchOutcome
}.

(** [JSON.parse(JSON.stringify(x))]: a fresh copy with the same fields. *)
Definition cloneActivity (a : Activity) : Activity := {|
  activity_id := activity_id a;
  name := name a;
  start_time := start_time a;
  end_time := end_time a;
  duration_minutes := duration_minutes a;
  travel_from_previous := travel_from_previous a;
  category := category a;
  type := type a;
  description := description a;
  location :=
    match location a with
    | Some l => Some {| lat := lat l; lon := lon l |}
    | None => None
    end
|}.

Definition cloneDay (d : DayItinerary) : DayItinerary := {|
  date := date d;
  morning := map cloneActivity (morning d);
  afternoon := map cloneActivity (afternoon d);
  evening := map cloneActivity (evening d)
|}.

Definition cloneItinerary (i : Itinerary) : Itinerary := {|
  day_1 := option_map cloneDay (day_1 i);
  day_2 := option_map cloneDay (day_2 i);
  day_3 := option_map cloneDay (day_3 i)
|}.

(** The body of the [try] block when mock data is off: it either throws or
    yields the state updates of a successful answer. *)
Definition applyResponse (st : AppState) (env : TurnEnv) (data : ApiResponse)
  : Result AppState :=
  if String.eqb (api_status data) "success" then
    Ok {|
      messages :=
        messages st ++
        [{| role := assistant; content := api_response data;
            timestamp := Some (now_reply env) |}];
      itinerary :=
        match api_itinerary data with
        | Some it => Some (cloneItinerary it)
        | None => itinerary st
        end;
      sources :=
        match api_sources data with
        | Some l => l
        | None => sources st
        end;
      isLoading := isLoading st;
      sessionId :=
        if truthyOpt (api_session_id data) then api_session_id data
        else sessionId st;
      useMockData := useMockData st
    |}
  else
    Throw (if truthyOpt (api_error data) then orEmpty (api_error data)
           else "Unknown error occurred").

Definition setIsLoading (b : bool) (st : AppState) : AppState := {|
  messages := messages st;
  itinerary := itinerary st;
  sources := sources st;
  isLoading := b;
  sessionId := sessionId st;
  useMockData := useMockData st
|}.

Definition pushMessage (m : Message) (st : AppState) : AppState := {|
  messages := messages st ++ [m];
  itinerary := itinerary st;
  sources := sources st;
  isLoading := isLoading st;
  sessionId := sessionId st;
  useMockData := useMockData st
|}.

Definition sendMessage (st : AppState) (content : string) (env : TurnEnv)
  : AppState :=
  let st1 :=
    setIsLoading true
      (pushMessage {| role := user; content := content;
                      timestamp := Some (now_user env) |} st) in
  let attempt : Result AppState :=
    if useMockData st then
      Ok {|
        messages :=
          messages st1 ++
          [{| role := assistant;
              content := "I've created your 2-day cultural trip to Jaipur! Here's your itinerary.";
              timestamp := Some (now_reply env) |}];
        itinerary := Some mockItinerary;
        sources := mockSources;
        isLoading := isLoading st1;
        sessionId := sessionId st1;
        useMockData := useMockData st1
      |}
    else
      match chat env content (sessionId st) with
      | FetchRejected m => Throw m
      | HttpStatus s => Throw ("HTTP error! status: " ++ showNat s)
      | JsonBody data => applyResponse st1 env data
      end in
  let st2 :=
    match attempt with
    | Ok st' => st'
    | Throw m =>
        pushMessage
          {| role := assistant;
             content :=
               "Error: " ++ m ++ ". " ++
               (if useMockData st then ""
                else "You can enable mock data mode to test the UI.");
             timestamp := Some (now_reply env) |}
          st1
    end in
  setIsLoading false st2.

(** *** [components/ItineraryDisplay.tsx]: what the timeline of the selected
    day shows, top to bottom *)

Inductive TimeSlot := slot_morning | slot_afternoon | slot_evening.

Inductive Element :=
| SlotHeading (slot : TimeSlot)
| TravelTime (minutes : Z)
| ActivityCard (a : Activity)
| NoActivities.

Definition nonEmpty {A : Type} (l : list A) : bool :=
  match l with
  | [] => false
  | _ :: _ => true
  end.

Definition showTravelTime (currentDay : DayItinerary) (index : nat)
  (timeSlot : TimeSlot) : bool :=
  let isFirstInSlot := Nat.eqb index 0 in
  negb isFirstInSlot
  || match timeSlot with
     | slot_afternoon => nonEmpty (morning currentDay)
     | _ => false
     end
  || match timeSlot with
     | slot_evening =>
         nonEmpty (afternoon currentDay) || nonEmpty (morning currentDay)
     | _ => false
     end.

Definition renderActivityCard (currentDay : DayItinerary) (activity : Activity)
  (index : nat) (timeSlot : TimeSlot) : list Element :=
  match travel_from_previous activity with
  | Some t =>
      if showTravelTime currentDay index timeSlot && (0 <? t)%Z
      then [TravelTime t; ActivityCard activity]
      else [ActivityCard activity]
  | None => [ActivityCard activity]
  end.

(** [activities.map((activity, index) => renderActivityCard(...))]. *)
Fixpoint renderCards (currentDay : DayItinerary) (timeSlot : TimeSlot)
  (index : nat) (l : list Activity) : list Element :=
  match l with
  | [] => []
  | a :: l' =>
      renderActivityCard currentDay a index timeSlot ++
      renderCards currentDay timeSlot (S index) l'
  end.

Definition renderTimeSlot (currentDay : DayItinerary) (slot : TimeSlot)
  (l : list Activity) : list Element :=
  match l with
  | [] => []
  | _ :: _ => SlotHeading slot :: renderCards currentDay slot 0 l
  end.

Definition renderDay (currentDay : DayItinerary) : list Element :=
  renderTimeSlot currentDay slot_morning (morning currentDay) ++
  renderTimeSlot currentDay slot_afternoon (afternoon currentDay) ++
  renderTimeSlot currentDay slot_evening (evening currentDay) ++
  (if nonEmpty (morning currentDay) || nonEmpty (afternoon currentDay)
      || nonEmpty (evening currentDay)
   then [] else [NoActivities]).

(** The activities of a day in the order of the timeline. *)
Definition dayActivities (d : DayItinerary) : list Activity :=
  morning d ++ afternoon d ++ evening d.

Definition days (i : Itinerary) : list DayItinerary :=
  match day_1 i with Some d => [d] | None => [] end ++
  match day_2 i with Some d => [d] | None => [] end ++
  match day_3 i with Some d => [d] | None => [] end.

(** The invariant of a timeline read top to bottom, [seen] telling whether
    an activity card has been passed: a travel time stands only after some
    card, is positive, and is followed at once by the card of the activity
    that carries it. *)
Fixpoint placed (seen : bool) (l : list Element) : Prop :=
  match l with
  | [] => True
  | TravelTime t :: l' =>
      seen = true /\ (0 < t)%Z /\
      match l' with
      | ActivityCard a :: _ => travel_from_previous a = Some t
      | _ => False
      end /\
      placed seen l'
  | ActivityCard _ :: l' => placed true l'
  | _ :: l' => placed seen l'
  end.

Definition isCard (e : Element) : bool :=
  match e with
  | ActivityCard _ => true
  | _ => false
  end.

(** The first day of the mock itinerary. *)
Definition mockDay1 : DayItinerary :=
  match day_1 mockItinerary with
  | Some d => d
  | None => {| date := None; morning := []; afternoon := []; evening := [] |}
  end.

(** Sample values: a stored itinerary, a state, a successful answer and an
    outside world that gives it. *)
Definition example_previous : Itinerary := {|
  day_1 := None;
  day_2 := None;
  day_3 := Some {| date := None; morning := []; afternoon := [];
                   evening := [] |}
|}.

Definition example_state : AppState := {|
  messages := [];
  itinerary := Some example_previous;
  sources := [];
  isLoading := false;
  sessionId := Some "s-1";
  useMockData := false
|}.

Definition example_data : ApiResponse := {|
  api_status := "success";
  api_response := "Here is your plan.";
  api_itinerary := Some mockItinerary;
  api_sources := Some mockSources;
  api_session_id := Some "s-1";
  api_error := None
|}.

Definition example_env : TurnEnv := {|
  now_user := 0;
  now_reply := 1;
  chat := fun _ _ => JsonBody example_data
|}.

(** An outside world in which the server answers with status 500. *)
Definition example_failing : TurnEnv := {|
  now_user := 0;
  now_reply := 1;
  chat := fun _ _ => HttpStatus 500
|}.

End TextFrontend.

(** ** The voice client: [voice-frontend/src] *)

Module VoiceFrontend.

Import Js.
Open Scope string_scope.

(** *** [types.ts] *)

Inductive Speaker := user | assistant.

Record TranscriptMessage := {
  type : Speaker;
  text : string;
  timestamp : option Date
}.

Record Location := {
  lat : option Q;
  lng : option Q;
  address : option string
}.

Record Activity := {
  id : string;
  name : string;
  start_time : string;
  end_time : string;
  duration_minutes : Z;
  category : option string;
  location : option Location
}.

Record DayItinerary := {
  date : option string;
  morning : list Activity;
  afternoon : list Activity;
  evening : list Activity
}.

(** The itinerary the client holds is the object that [response.json()]
    parsed: [types.ts] declares the keys [day_1], [day_2] and [day_3], and
    the object holds whatever keys the server sent.  It is modelled by its
    property lookup, [None] for a key that is absent. *)
Definition Itinerary := string -> option DayItinerary.

Definition day_1 (itinerary : Itinerary) : option DayItinerary :=
  itinerary "day_1".

Definition day_2 (itinerary : Itinerary) : option DayItinerary :=
  itinerary "day_2".

Definition day_3 (itinerary : Itinerary) : option DayItinerary :=
  itinerary "day_3".

(** [Source]: the fields [id], [name], [type] and [url]. *)
Record Source := {
  source_id : string;
  source_name : string;
  source_type : string;
  url : option string
}.

(** *** [utils/api.ts] *)

Record Blob := {
  blob_type : string;
  blob_bytes : list nat
}.

Inductive FormValue :=
| Field (value : string)
| File (content : Blob) (filename : string).

Definition FormData := list (string * FormValue).

(** The body of an error answer as [response.json()] reads it. *)
Record ErrorBody := {
  detail : option string;
  message : option string
}.

(** A [Response] of [fetch].  [json] is what [response.json()] yields when
    it is the first to read the body; [hasBody] tells whether the response
    has a body at all. *)
Record Response := {
  ok : bool;
  status : nat;
  headers : list (string * string);
  json : Result ErrorBody;
  hasBody : bool;
  blob : Blob
}.

(** [response.text()] called after [response.json()]: the body of a
    response is read once, so the second read rejects; a response without
    a body yields the empty string. *)
Definition textAfterJson (response : Response) : Result string :=
  if hasBody response
  then Throw "Failed to execute 'text' on 'Response': body stream already read"
  else Ok "".

(** [response.headers.get(name)]: [None] is JavaScript's [null]. *)
Fixpoint headers_get (h : list (string * string)) (name : string)
  : option string :=
  match h with
  | [] => None
  | (k, v) :: h' => if String.eqb k name then Some v else headers_get h' name
  end.

Definition includes (s sub : string) : bool :=
  match String.index 0 sub s with
  | Some _ => true
  | None => false
  end.

Record VoiceResult := {
  audioBlob : Blob;
  res_sessionId : string;
  transcribedText : string;
  aiResponse : string;
  res_sources : list Source
}.

(** What [getItinerary] finds under [/trip/session/<id>]. *)
Record SessionData := {
  current_itinerary : option Itinerary;
  session_sources : option (list Source)
}.

Inductive SessionOutcome :=
| SessionRejected (message : string)
| SessionStatus (status : nat)
| SessionJson (data : SessionData).

Section Api.

(** The browser's [atob] and [JSON.parse], the latter at the type the
    caller gives its result; both may throw. *)
Variable atob : string -> Result string.
Variable JSON_parse : string -> Result (list Source).

Definition extension (audioBlob : Blob) : string :=
  if includes (blob_type audioBlob) "webm" then "webm"
  else if includes (blob_type audioBlob) "wav" then "wav"
  else if includes (blob_type audioBlob) "ogg" then "ogg"
  else "webm".

Definition formData (audioBlob : Blob) (sessionId : option string)
  : FormData :=
  ([("audio", File audioBlob ("recording." ++ extension audioBlob))] ++
   (match sessionId with
    | Some s => if truthy s then [("session_id", Field s)] else []
    | None => []
    end) ++
   [("language", Field "en"); ("voice", Field "default");
    ("speed", Field "1.0")])%list.

(** The message of the error thrown for an answer that is not [ok]. *)
Definition errorDetail (response : Response) : string :=
  let fallback := "HTTP error! status: " ++ showNat (status response) in
  match json response with
  | Ok error =>
      if truthyOpt (detail error) then orEmpty (detail error)
      else if truthyOpt (message error) then orEmpty (message error)
      else fallback
  | Throw _ =>
      match textAfterJson response with
      | Ok t => if truthy t then t else fallback
      | Throw _ => fallback
      end
  end.

(** The three values read from the headers, after the optional base64
    decoding: transcribed text, reply text, sources. *)
Definition decodeHeaders (response : Response)
  : string * string * list Source :=
  let get := headers_get (headers response) in
  let encoding := get "X-Encoding" in
  let transcribedText := orEmpty (get "X-Transcribed-Text") in
  let aiResponse := orEmpty (get "X-AI-Response") in
  match encoding with
  | Some e =>
      if String.eqb e "base64" then
        match (if truthy transcribedText then atob transcribedText
               else Ok transcribedText) with
        | Throw _ => (transcribedText, aiResponse, [])
        | Ok transcribedText' =>
            match (if truthy aiResponse then atob aiResponse
                   else Ok aiResponse) with
            | Throw _ => (transcribedText', aiResponse, [])
            | Ok aiResponse' =>
                let encodedSources := get "X-Sources" in
                let decoded :=
                  if truthyOpt encodedSources then
                    match bind (atob (orEmpty encodedSources)) JSON_parse with
                    | Ok l => l
                    | Throw _ => []
                    end
                  else [] in
                (transcribedText', aiResponse', decoded)
            end
        end
      else (transcribedText, aiResponse, [])
  | None => (transcribedText, aiResponse, [])
  end.

Definition sendVoiceMessage (server : FormData -> Result Response)
  (audioBlob : Blob) (sessionId : option string) : Result VoiceResult :=
  bind (server (formData audioBlob sessionId)) (fun response =>
  if negb (ok response) then Throw (errorDetail response)
  else
    let newSessionId :=
      orEmpty (orElse (headers_get (headers response) "X-Session-Id")
                      sessionId) in
    let '(transcribedText, aiResponse, sources) := decodeHeaders response in
    Ok {| audioBlob := blob response;
          res_sessionId := newSessionId;
          transcribedText := transcribedText;
          aiResponse := aiResponse;
          res_sources := sources |}).

Definition getItinerary (server : string -> SessionOutcome)
  (sessionId : string) : Result SessionData :=
  match server sessionId with
  | SessionRejected m => Throw m
  | SessionStatus s => Throw ("Failed to fetch itinerary: " ++ showNat s)
  | SessionJson data => Ok data
  end.

Definition getSources (server : string -> SessionOutcome)
  (sessionId : string) : list Source :=
  match getItinerary server sessionId with
  | Ok sessionData =>
      match session_sources sessionData with
      | Some l => l
      | None => []
      end
  | Throw _ => []
  end.

(** *** [App.tsx] *)

Record AppState := {
  selectedDay : nat;
  isListening : bool;
  isProcessing : bool;
  transcript : list TranscriptMessage;
  itinerary : option Itinerary;
  sources : list Source;
  sessionId : option string
}.

(** The outside world of one call of [handleToggleListening]: whether the
    recorder exists, what becomes of its two promises ([stopRecording]
    settles its promise only from the events of the recorder), the voice
    endpoint,
    the session endpoint as read by [loadItinerary] and then by
    [loadSources] once they have answered, and the clock. *)
Record ToggleEnv := {
  recorder : bool;
  startRecording : Promise unit;
  stopRecording : Promise Blob;
  voice_chat : FormData -> Result Response;
  session_first : string -> SessionOutcome;
  session_second : string -> SessionOutcome;
  now : Date
}.

Definition apology : string :=
  "Sorry, I encountered an error processing your request. Please try again.".

Definition setFlags (listening processing : bool) (st : AppState)
  : AppState := {|
  selectedDay := selectedDay st;
  isListening := listening;
  isProcessing := processing;
  transcript := transcript st;
  itinerary := itinerary st;
  sources := sources st;
  sessionId := sessionId st
|}.

Definition pushTranscript (m : TranscriptMessage) (st : AppState)
  : AppState := {|
  selectedDay := selectedDay st;
  isListening := isListening st;
  isProcessing := isProcessing st;
  transcript := (transcript st ++ [m])%list;
  itinerary := itinerary st;
  sources := sources st;
  sessionId := sessionId st
|}.

Definition setSources (l : list Source) (st : AppState) : AppState := {|
  selectedDay := selectedDay st;
  isListening := isListening st;
  isProcessing := isProcessing st;
  transcript := transcript st;
  itinerary := itinerary st;
  sources := l;
  sessionId := sessionId st
|}.

Definition setItinerary (i : option Itinerary) (st : AppState)
  : AppState := {|
  selectedDay := selectedDay st;
  isListening := isListening st;
  isProcessing := isProcessing st;
  transcript := transcript st;
  itinerary := i;
  sources := sources st;
  sessionId := sessionId st
|}.

Definition setSessionId (s : option string) (st : AppState) : AppState := {|
  selectedDay := selectedDay st;
  isListening := isListening st;
  isProcessing := isProcessing st;
  transcript := transcript st;
  itinerary := itinerary st;
  sources := sources st;
  sessionId := s
|}.

(** [loadItinerary], with [sessionId] the value captured by the closure. *)
Definition loadItinerary (server : string -> SessionOutcome)
  (sessionId : option string) (st : AppState) : AppState :=
  if truthyOpt sessionId then
    match getItinerary server (orEmpty sessionId) with
    | Ok sessionData =>
        match current_itinerary sessionData with
        | Some it => setItinerary (Some it) st
        | None => st
        end
    | Throw _ => st
    end
  else st.

Definition loadSources (server : string -> SessionOutcome)
  (sessionId : option string) : list Source :=
  if truthyOpt sessionId then getSources server (orEmpty sessionId) else [].

Definition nonEmpty {A : Type} (l : list A) : bool :=
  match l with
  | [] => false
  | _ :: _ => true
  end.

(** The statements of the [try] block after [sendVoiceMessage] has
    returned [response]; [captured] is the state the handler closed over. *)
Definition afterResponse (env : ToggleEnv) (captured : AppState)
  (response : VoiceResult) (st : AppState) : AppState :=
  let st :=
    if truthy (res_sessionId response)
    then setSessionId (Some (res_sessionId response)) st else st in
  let st :=
    if nonEmpty (res_sources response)
    then setSources (res_sources response) st else st in
  let st :=
    if truthy (transcribedText response)
    then pushTranscript {| type := user; text := transcribedText response;
                           timestamp := Some (now env) |} st
    else st in
  let st :=
    if truthy (aiResponse response)
    then pushTranscript {| type := assistant; text := aiResponse response;
                           timestamp := Some (now env) |} st
    else st in
  let st := loadItinerary (session_first env) (sessionId captured) st in
  if nonEmpty (res_sources response) then st
  else
    let sessionSources :=
      loadSources (session_second env) (sessionId captured) in
    if nonEmpty sessionSources then setSources sessionSources st else st.

(** [handleToggleListening].  While the promise awaited first is not
    settled the handler stays suspended at its [await]: the state is the one
    the setters before the [await] left, and [finally] has not run. *)
Definition handleToggleListening (st : AppState) (env : ToggleEnv)
  : AppState :=
  if negb (recorder env) then st
  else if isListening st then
    let st1 := setFlags false true st in
    match stopRecording env with
    | Pending => st1
    | Settled stopped =>
        let attempt :=
          bind stopped (fun audioBlob =>
          bind (sendVoiceMessage (voice_chat env) audioBlob (sessionId st))
            (fun response => Ok (afterResponse env st response st1))) in
        let st2 :=
          match attempt with
          | Ok st' => st'
          | Throw _ =>
              pushTranscript {| type := assistant; text := apology;
                                timestamp := Some (now env) |} st1
          end in
        setFlags (isListening st2) false st2
    end
  else
    match startRecording env with
    | Settled (Ok _) => setFlags true (isProcessing st) st
    | Settled (Throw _) => st
    | Pending => st
    end.

Definition getAvailableDays (itinerary : option Itinerary) : list nat :=
  match itinerary with
  | None => [1; 2; 3]
  | Some itinerary =>
      let days :=
        ((match day_1 itinerary with Some _ => [1] | None => [] end) ++
         (match day_2 itinerary with Some _ => [2] | None => [] end) ++
         (match day_3 itinerary with Some _ => [3] | None => [] end))%list in
      if nonEmpty days then days else [1; 2; 3]
  end.

(** The key [day_<selectedDay>] that [getDayItinerary] builds. *)
Definition dayKey (selectedDay : nat) : string :=
  "day_" ++ showNat selectedDay.

(** [itinerary[dayKey]] for the key of [selectedDay]. *)
Definition dayOf (itinerary : Itinerary) (selectedDay : nat)
  : option DayItinerary :=
  itinerary (dayKey selectedDay).

Definition getDayItinerary (st : AppState) : option DayItinerary :=
  match itinerary st with
  | None => None
  | Some i => dayOf i (selectedDay st)
  end.

(** [setSelectedDay]. *)
Definition setSelectedDay (day : nat) (st : AppState) : AppState := {|
  selectedDay := day;
  isListening := isListening st;
  isProcessing := isProcessing st;
  transcript := transcript st;
  itinerary := itinerary st;
  sources := sources st;
  sessionId := sessionId st
|}.

(** The state [App] starts in. *)
Definition initial : AppState := {|
  selectedDay := 1;
  isListening := false;
  isProcessing := false;
  transcript := [];
  itinerary := None;
  sources := [];
  sessionId := None
|}.

(** [DaySelector]: one button per entry of [availableDays], and a click on
    the button with number [button] calls [onSelectDay] with its day. *)
Definition clickDay (button : nat) (st : AppState) : AppState :=
  match nth_error (getAvailableDays (itinerary st)) button with
  | Some day => setSelectedDay day st
  | None => st
  end.

End Api.

(** *** Sample values *)

Definition quote : string := String (ascii_of_nat 34) EmptyString.

Definition jsonField (key value : string) : string :=
  quote ++ key ++ quote ++ ":" ++ quote ++ value ++ quote.

(** [JSON.stringify] of a source that has a [url]. *)
Definition jsonOfSource (s : Source) : string :=
  "{" ++ jsonField "id" (source_id s) ++ "," ++
  jsonField "name" (source_name s) ++ "," ++
  jsonField "type" (source_type s) ++ "," ++
  jsonField "url" (orEmpty (url s)) ++ "}".

Definition osm : Source := {|
  source_id := "0";
  source_name := "OpenStreetMap";
  source_type := "map";
  url := Some "https://www.openstreetmap.org/node/12345"
|}.

Definition wikivoyage : Source := {|
  source_id := "1";
  source_name := "Wikivoyage";
  source_type := "guide";
  url := Some "https://en.wikivoyage.org/wiki/Jaipur"
|}.

Definition wikivoyage_see : Source := {|
  source_id := "2";
  source_name := "Wikivoyage: See";
  source_type := "guide";
  url := Some "https://en.wikivoyage.org/wiki/Jaipur"
|}.

(** The JSON text of the array of the two Wikivoyage sources and its
    base64 encoding. *)
Definition example_json : string :=
  "[" ++ jsonOfSource wikivoyage ++ "," ++ jsonOfSource wikivoyage_see ++ "]".

Definition example_base64 : string :=
  "W3siaWQiOiIxIiwibmFtZSI6Ildpa2l2b3lhZ2UiLCJ0eXBlIjoiZ3VpZGUiLCJ1cmwiOiJodHRwczovL2VuLndpa2l2b3lhZ2Uub3JnL3dpa2kvSmFpcHVyIn0seyJpZCI6IjIiLCJuYW1lIjoiV2lraXZveWFnZTogU2VlIiwidHlwZSI6Imd1aWRlIiwidXJsIjoiaHR0cHM6Ly9lbi53aWtpdm95YWdlLm9yZy93aWtpL0phaXB1ciJ9XQ==".

(** [atob] and [JSON.parse] on the texts above. *)
Definition example_atob (s : string) : Result string :=
  if String.eqb s example_base64 then Ok example_json
  else Throw "InvalidCharacterError".

Definition example_parse (s : string) : Result (list Source) :=
  if String.eqb s example_json then Ok [wikivoyage; wikivoyage_see]
  else Throw "SyntaxError".

Definition example_blob : Blob := {|
  blob_type := "audio/webm;codecs=opus";
  blob_bytes := [26; 69; 223; 163]
|}.

Definition example_day : DayItinerary := {|
  date := None;
  morning := [];
  afternoon := [];
  evening := []
|}.

Definition example_itinerary : Itinerary :=
  fun key => if String.eqb key "day_1" then Some example_day else None.

(** A client in the middle of a session, listening. *)
Definition example_state : AppState := {|
  selectedDay := 1;
  isListening := true;
  isProcessing := false;
  transcript := [];
  itinerary := Some example_itinerary;
  sources := [osm];
  sessionId := Some "abc"
|}.

Definition example_response (h : list (string * string)) : Response := {|
  ok := true;
  status := 200;
  headers := h;
  json := Throw "SyntaxError";
  hasBody := true;
  blob := example_blob
|}.

(** The outside world in which the voice endpoint answers with the headers
    [h] and the session endpoint is not found. *)
Definition example_env (h : list (string * string)) : ToggleEnv := {|
  recorder := true;
  startRecording := Settled (Ok tt);
  stopRecording := Settled (Ok example_blob);
  voice_chat := fun _ => Ok (example_response h);
  session_first := fun _ => SessionStatus 404;
  session_second := fun _ => SessionStatus 404;
  now := 0
|}.

(** The outside world in which the request to the voice endpoint fails. *)
Definition example_offline : ToggleEnv := {|
  recorder := true;
  startRecording := Settled (Ok tt);
  stopRecording := Settled (Ok example_blob);
  voice_chat := fun _ => Throw "Failed to fetch";
  session_first := fun _ => SessionRejected "Failed to fetch";
  session_second := fun _ => SessionRejected "Failed to fetch";
  now := 0
|}.

End VoiceFrontend.

(** ** [voice-frontend/src/utils/voiceRecorder.ts] *)

Module VoiceRecorder.

Import Js.
Open Scope string_scope.

Definition Blob := VoiceFrontend.Blob.

Inductive RecordingState := inactive | recording | paused.

(** A [MediaRecorder] object of the browser.  [onstop] and [onerror] hold
    the number of the promise that the handlers installed by
    [stopRecording] settle; [ondataavailable] is installed on every recorder
    that [startRecording] creates. *)
Record MediaRecorder := {
  recorded : nat;
  mimeType : string;
  state : RecordingState;
  onstop : option nat;
  onerror : option nat
}.

(** The three private fields of the [VoiceRecorder] object together with
    the browser objects they refer to: [recorders] is the heap of
    [MediaRecorder] objects, [streams] tells for every [MediaStream] handed
    out by [getUserMedia] whether its tracks are still live, [promises]
    counts the promises returned by [stopRecording]. *)
Record World := {
  mediaRecorder : option nat;
  audioChunks : list Blob;
  stream : option nat;
  recorders : list MediaRecorder;
  streams : list bool;
  promises : nat
}.

Definition fresh : World := {|
  mediaRecorder := None;
  audioChunks := [];
  stream := None;
  recorders := [];
  streams := [];
  promises := 0
|}.

Definition live (w : World) (s : nat) : bool := nth s (streams w) false.

(** What the caller of the object observes. *)
Inductive Output :=
| started
| startFailed (message : string)
| resolve (promise : nat) (audioBlob : Blob)
| reject (promise : nat) (message : string).

Definition mimeTypes : list string :=
  ["audio/wav"; "audio/webm;codecs=opus"; "audio/webm";
   "audio/ogg;codecs=opus"; "audio/mp4"].

(** The loop over [mimeTypes]: the first supported type, or the type the
    browser picks for empty [options]. *)
Definition chooseType (isTypeSupported : string -> bool)
  (browserDefault : string) : string :=
  match find isTypeSupported mimeTypes with
  | Some t => t
  | None => browserDefault
  end.

Definition startError : string :=
  "Failed to start recording. Please check microphone permissions.".

(** [startRecording].  [getUserMedia] answers with a new stream or rejects.
    Everything after [this.stream = stream] runs in the same [try], whose
    [catch] rethrows and releases nothing: [constructs] tells whether
    [MediaRecorder.isTypeSupported] and [new MediaRecorder] return normally
    (they throw where the browser has no [MediaRecorder]), [starts] whether
    [start] does.  When the constructor throws, the object holds the new
    stream and the recorder it held before; when [start] throws, it holds
    the new stream and the new recorder, which is inactive. *)
Definition startRecording (getUserMedia : bool)
  (isTypeSupported : string -> bool) (browserDefault : string)
  (constructs starts : bool) (w : World) : World * list Output :=
  if getUserMedia then
    if constructs then
      ({| mediaRecorder := Some (List.length (recorders w));
          audioChunks := [];
          stream := Some (List.length (streams w));
          recorders :=
            (recorders w ++
             [{| recorded := List.length (streams w);
                 mimeType := chooseType isTypeSupported browserDefault;
                 state := if starts then recording else inactive;
                 onstop := None;
                 onerror := None |}])%list;
          streams := (streams w ++ [true])%list;
          promises := promises w |},
       [if starts then started else startFailed startError])
    else
      ({| mediaRecorder := mediaRecorder w;
          audioChunks := audioChunks w;
          stream := Some (List.length (streams w));
          recorders := recorders w;
          streams := (streams w ++ [true])%list;
          promises := promises w |},
       [startFailed startError])
  else (w, [startFailed startError]).

Definition cleanup (w : World) : World := {|
  mediaRecorder := None;
  audioChunks := audioChunks w;
  stream := None;
  recorders := recorders w;
  streams :=
    match stream w with
    | Some s => update s (fun _ => false) (streams w)
    | None => streams w
    end;
  promises := promises w
|}.

Definition setRecorders (l : list MediaRecorder) (w : World) : World := {|
  mediaRecorder := mediaRecorder w;
  audioChunks := audioChunks w;
  stream := stream w;
  recorders := l;
  streams := streams w;
  promises := promises w
|}.

(** [MediaRecorder.stop()]: nothing happens on an inactive recorder. *)
Definition stop (m : MediaRecorder) : MediaRecorder := {|
  recorded := recorded m;
  mimeType := mimeType m;
  state := inactive;
  onstop := onstop m;
  onerror := onerror m
|}.

Definition installHandlers (p : nat) (m : MediaRecorder) : MediaRecorder := {|
  recorded := recorded m;
  mimeType := mimeType m;
  state := state m;
  onstop := Some p;
  onerror := Some p
|}.

Definition newPromise (w : World) : World := {|
  mediaRecorder := mediaRecorder w;
  audioChunks := audioChunks w;
  stream := stream w;
  recorders := recorders w;
  streams := streams w;
  promises := S (promises w)
|}.

(** The executor of the promise of [stopRecording]; the promise is number
    [promises w]. *)
Definition stopRecording (w : World) : World * list Output :=
  let p := promises w in
  match mediaRecorder w with
  | None => (newPromise w, [reject p "No recording in progress"])
  | Some r =>
      (setRecorders
         (update r (fun m => stop (installHandlers p m)) (recorders w))
         (newPromise w),
       [])
  end.

Definition isRecording (w : World) : bool :=
  match mediaRecorder w with
  | Some r =>
      match nth_error (recorders w) r with
      | Some m =>
          match state m with
          | recording => true
          | _ => false
          end
      | None => false
      end
  | None => false
  end.

Definition cancelRecording (w : World) : World :=
  let w1 :=
    match mediaRecorder w with
    | Some r =>
        setRecorders
          (update r
             (fun m => match state m with recording => stop m | _ => m end)
             (recorders w))
          w
    | None => w
    end in
  cleanup w1.

(** [new Blob(this.audioChunks, { type: mimeType })]. *)
Definition newBlob (chunks : list Blob) (type : string) : Blob :=
  {| VoiceFrontend.blob_type := type;
     VoiceFrontend.blob_bytes := flat_map VoiceFrontend.blob_bytes chunks |}.

(** The [onstop] handler, run in the world in which the event arrives. *)
Definition onstopHandler (p : nat) (w : World) : World * list Output :=
  let type :=
    match mediaRecorder w with
    | Some r =>
        match nth_error (recorders w) r with
        | Some m => if truthy (mimeType m) then mimeType m else "audio/webm"
        | None => "audio/webm"
        end
    | None => "audio/webm"
    end in
  let audioBlob := newBlob (audioChunks w) type in
  (cleanup w, [resolve p audioBlob]).

Definition onerrorHandler (p : nat) (w : World) : World * list Output :=
  (cleanup w, [reject p "Recording error occurred"]).

Definition ondataavailable (data : Blob) (w : World) : World :=
  if Nat.ltb 0 (List.length (VoiceFrontend.blob_bytes data)) then
    {| mediaRecorder := mediaRecorder w;
       audioChunks := (audioChunks w ++ [data])%list;
       stream := stream w;
       recorders := recorders w;
       streams := streams w;
       promises := promises w |}
  else w.

(** The calls of the three public methods and the events the browser
    dispatches on a recorder.  The browser inactivates a recorder before it
    dispatches [stop] or [error] on it. *)
Inductive Action :=
| callStart (getUserMedia : bool) (isTypeSupported : string -> bool)
    (browserDefault : string) (constructs starts : bool)
| callStop
| callCancel
| dataavailable (r : nat) (data : Blob)
| stopEvent (r : nat)
| errorEvent (r : nat).

Definition step (w : World) (a : Action) : World * list Output :=
  match a with
  | callStart g s d c b => startRecording g s d c b w
  | callStop => stopRecording w
  | callCancel => (cancelRecording w, [])
  | dataavailable r data =>
      match nth_error (recorders w) r with
      | Some _ => (ondataavailable data w, [])
      | None => (w, [])
      end
  | stopEvent r =>
      let w1 := setRecorders (update r stop (recorders w)) w in
      match nth_error (recorders w) r with
      | Some m =>
          match onstop m with
          | Some p => onstopHandler p w1
          | None => (w1, [])
          end
      | None => (w, [])
      end
  | errorEvent r =>
      let w1 := setRecorders (update r stop (recorders w)) w in
      match nth_error (recorders w) r with
      | Some m =>
          match onerror m with
          | Some p => onerrorHandler p w1
          | None => (w1, [])
          end
      | None => (w, [])
      end
  end.

Fixpoint run (w : World) (l : list Action) : World :=
  match l with
  | [] => w
  | a :: l' => run (fst (step w a)) l'
  end.

(** Whether an output settles a promise of [stopRecording]. *)
Definition settles (o : Output) : bool :=
  match o with
  | resolve _ _ | reject _ _ => true
  | _ => false
  end.

(** The idle state, seen from the world [w] before the step: no recording,
    no recorder, no stream, and the tracks of the stream held in [w] are
    stopped. *)
Definition idle (w w' : World) : Prop :=
  isRecording w' = false /\
  mediaRecorder w' = None /\
  stream w' = None /\
  (forall s, stream w = Some s -> live w' s = false).

(** A browser without [MediaRecorder] that grants the microphone: the
    call of [startRecording] fails after it has taken the stream. *)
Definition example_unsupported : Action :=
  callStart true (fun _ => false) "" false false.

(** The world after that call on a new [VoiceRecorder]. *)
Definition example_failed_start : World := fst (step fresh example_unsupported).

End VoiceRecorder.

(** ** [voice-frontend/src/utils/formatMessage.ts] *)

Module FormatMessage.

Open Scope N_scope.

(** A JavaScript string: its UTF-16 code units. *)
Definition jsString := list N.

Definition ofAscii (s : string) : jsString :=
  map N_of_ascii (list_ascii_of_string s).

Definition isLineTerminator (c : N) : bool :=
  (c =? 10) || (c =? 13) || (c =? 8232) || (c =? 8233).

(** [\s] of regular expressions, which is also what [trim] removes. *)
Definition isWhiteSpace (c : N) : bool :=
  ((9 <=? c) && (c <=? 13)) || (c =? 32) || (c =? 160) || (c =? 5760)
  || ((8192 <=? c) && (c <=? 8202)) || (c =? 8232) || (c =? 8233)
  || (c =? 8239) || (c =? 8287) || (c =? 12288) || (c =? 65279).

Definition isDigit (c : N) : bool := (48 <=? c) && (c <=? 57).

(** Case folding of the [i] flag, on the ASCII letters the patterns use. *)
Definition upper (c : N) : N :=
  if (97 <=? c) && (c <=? 122) then c - 32 else c.

Definition same (i : bool) (a c : N) : bool :=
  if i then upper a =? upper c else a =? c.

Inductive Regex :=
| Empty
| Char (p : N -> bool)
| Seq (a b : Regex)
| Alt (a b : Regex)
| Star (greedy : bool) (a : Regex)
| Group (n : nat) (a : Regex)
| AtStart (multiline : bool)
| AtEnd
| Ahead (a : Regex).

Definition Captures := list (nat * jsString).

(** A position of the match: the code unit before it, the input after it
    and the groups captured so far. *)
Definition Position := (option N * jsString * Captures)%type.

Definition Continuation := option N -> jsString -> Captures -> option Position.

Definition matched : Continuation :=
  fun prev rest caps => Some (prev, rest, caps).

(** A repetition of the matcher [m]: at most [fuel] further iterations,
    each of which has to consume input; a greedy repetition tries one more
    iteration before it tries what follows, a lazy one the other way
    round. *)
Fixpoint repeatMatch
  (m : option N -> jsString -> Captures -> Continuation -> option Position)
  (greedy : bool) (k : Continuation) (fuel : nat) (prev : option N)
  (rest : jsString) (caps : Captures) {struct fuel} : option Position :=
  match fuel with
  | O => k prev rest caps
  | S fuel' =>
      let more :=
        m prev rest caps
          (fun prev' rest' caps' =>
             if Nat.ltb (List.length rest') (List.length rest)
             then repeatMatch m greedy k fuel' prev' rest' caps'
             else None) in
      if greedy then
        match more with
        | Some x => Some x
        | None => k prev rest caps
        end
      else
        match k prev rest caps with
        | Some x => Some x
        | None => more
        end
  end.

(** The backtracking matcher: [rmatch r prev rest caps k] matches [r] at
    the position and hands what follows to [k]; alternatives are tried left
    to right. *)
Fixpoint rmatch (r : Regex) (prev : option N) (rest : jsString)
  (caps : Captures) (k : Continuation) {struct r} : option Position :=
  match r with
  | Empty => k prev rest caps
  | Char p =>
      match rest with
      | c :: rest' => if p c then k (Some c) rest' caps else None
      | [] => None
      end
  | Seq a b =>
      rmatch a prev rest caps
        (fun prev' rest' caps' => rmatch b prev' rest' caps' k)
  | Alt a b =>
      match rmatch a prev rest caps k with
      | Some x => Some x
      | None => rmatch b prev rest caps k
      end
  | Star greedy a =>
      repeatMatch (rmatch a) greedy k (List.length rest) prev rest caps
  | Group n a =>
      rmatch a prev rest caps
        (fun prev' rest' caps' =>
           k prev' rest'
             ((n, firstn (List.length rest - List.length rest') rest)
                :: caps'))
  | AtStart multiline =>
      match prev with
      | None => k prev rest caps
      | Some c =>
          if multiline && isLineTerminator c then k prev rest caps else None
      end
  | AtEnd =>
      match rest with
      | [] => k prev rest caps
      | _ :: _ => None
      end
  | Ahead a =>
      match rmatch a prev rest caps matched with
      | Some (_, _, caps') => k prev rest caps'
      | None => None
      end
  end.

(** The leftmost match: the input skipped before it and the position after
    it. *)
Fixpoint search (r : Regex) (prev : option N) (s : jsString)
  : option (jsString * Position) :=
  match rmatch r prev s [] matched with
  | Some p => Some ([], p)
  | None =>
      match s with
      | [] => None
      | c :: s' =>
          match search r (Some c) s' with
          | Some (skipped, p) => Some (c :: skipped, p)
          | None => None
          end
      end
  end.

(** [s.match(r)] for a pattern without the [g] flag. *)
Definition match_ (r : Regex) (s : jsString) : option Captures :=
  match search r None s with
  | Some (_, (_, _, caps)) => Some caps
  | None => None
  end.

Definition test (r : Regex) (s : jsString) : bool :=
  match match_ r s with
  | Some _ => true
  | None => false
  end.

(** [m[n]]: [None] is [undefined]. *)
Fixpoint group (n : nat) (caps : Captures) : option jsString :=
  match caps with
  | [] => None
  | (i, v) :: caps' => if Nat.eqb i n then Some v else group n caps'
  end.

(** [m[n]] where only its truthiness and its text matter. *)
Definition groupText (n : nat) (caps : Captures) : jsString :=
  match group n caps with
  | Some v => v
  | None => []
  end.

Definition truthy (s : jsString) : bool :=
  match s with
  | [] => false
  | _ :: _ => true
  end.

(** [s.replace(r, repl)] for a pattern without the [g] flag. *)
Definition replace (r : Regex) (repl s : jsString) : jsString :=
  match search r None s with
  | Some (skipped, (_, rest, _)) => skipped ++ repl ++ rest
  | None => s
  end.

(** [s.replace(r, repl)] for a pattern with the [g] flag: matches are taken
    left to right, each search starting where the previous match ended. *)
Fixpoint replaceAllFrom (fuel : nat) (r : Regex) (repl : jsString)
  (prev : option N) (s : jsString) : jsString :=
  match fuel with
  | O => s
  | S fuel' =>
      match rmatch r prev s [] matched with
      | Some (prev', rest, _) =>
          if Nat.ltb (List.length rest) (List.length s)
          then repl ++ replaceAllFrom fuel' r repl prev' rest
          else
            match s with
            | [] => repl
            | c :: s' => repl ++ c :: replaceAllFrom fuel' r repl (Some c) s'
            end
      | None =>
          match s with
          | [] => []
          | c :: s' => c :: replaceAllFrom fuel' r repl (Some c) s'
          end
      end
  end.

Definition replaceAll (r : Regex) (repl s : jsString) : jsString :=
  replaceAllFrom (S (List.length s)) r repl None s.

(** [s.split(r)] for a non-empty [s]: [piece] holds, reversed, the code
    units since the last separator. *)
Fixpoint splitFrom (fuel : nat) (r : Regex) (piece : jsString)
  (prev : option N) (s : jsString) : list jsString :=
  match fuel, s with
  | O, _ => [rev piece ++ s]
  | _, [] => [rev piece]
  | S fuel', c :: s' =>
      match rmatch r prev s [] matched with
      | Some (prev', rest, _) =>
          if Nat.eqb (List.length rest) (List.length s) && negb (truthy piece)
          then splitFrom fuel' r (c :: piece) (Some c) s'
          else
            if Nat.ltb (List.length rest) (List.length s)
            then rev piece :: splitFrom fuel' r [] prev' rest
            else rev piece :: splitFrom fuel' r [c] (Some c) s'
      | None => splitFrom fuel' r (c :: piece) (Some c) s'
      end
  end.

Definition splitRegex (r : Regex) (s : jsString) : list jsString :=
  splitFrom (S (List.length s)) r [] None s.

(** [s.split('\n')]. *)
Fixpoint splitLines (s : jsString) : list jsString :=
  match s with
  | [] => [[]]
  | c :: s' =>
      if c =? 10 then [] :: splitLines s'
      else
        match splitLines s' with
        | l :: ls => (c :: l) :: ls
        | [] => [[c]]
        end
  end.

Fixpoint join (sep : jsString) (l : list jsString) : jsString :=
  match l with
  | [] => []
  | [x] => x
  | x :: l' => x ++ sep ++ join sep l'
  end.

Fixpoint dropWhile (p : N -> bool) (s : jsString) : jsString :=
  match s with
  | [] => []
  | c :: s' => if p c then dropWhile p s' else s
  end.

Definition trim (s : jsString) : jsString :=
  rev (dropWhile isWhiteSpace (rev (dropWhile isWhiteSpace s))).

(** *** The patterns of [formatMessage] *)

Definition lit (i : bool) (s : string) : Regex :=
  fold_right (fun c r => Seq (Char (same i c)) r) Empty (ofAscii s).

Definition seq (l : list Regex) : Regex := fold_right Seq Empty l.

Fixpoint alt (l : list Regex) : Regex :=
  match l with
  | [] => Char (fun _ => false)
  | [x] => x
  | x :: l' => Alt x (alt l')
  end.

Definition plus (greedy : bool) (a : Regex) : Regex := Seq a (Star greedy a).

Definition opt (a : Regex) : Regex := Alt a Empty.

Definition oneOf (i : bool) (s : string) (c : N) : bool :=
  existsb (fun a => same i a c) (ofAscii s).

Definition noneOf (i : bool) (s : string) (c : N) : bool :=
  negb (oneOf i s c).

Definition dot (c : N) : bool := negb (isLineTerminator c).

Definition space : Regex := Char isWhiteSpace.

Definition digit : Regex := Char isDigit.

(** [Visit|Explore|Enjoy|See|Tour|Go to|Check out] under the [i] flag. *)
Definition verbs : Regex :=
  alt (map (lit true)
         ["Visit"; "Explore"; "Enjoy"; "See"; "Tour"; "Go to";
          "Check out"]%string).

(** The pattern "/^-\s+/". *)
Definition dashMarker : Regex :=
  seq [AtStart false; lit false "-"; plus true space].

(** The pattern of [dayMatch]: start of input, group 1 "Day\s+\d+",
    "[:.]?", "\s*", group 2 ".*", end of input; flag "i". *)
Definition dayHeader : Regex :=
  seq [AtStart false;
       Group 1 (seq [lit true "Day"; plus true space; plus true digit]);
       opt (Char (oneOf true ":."));
       Star true space;
       Group 2 (Star true (Char dot));
       AtEnd].

(** The pattern of [periodMatch]: start of input, group 1
    "Morning|Afternoon|Evening|Night", "[:.]?", "\s*", group 2 ".*", end of
    input; flag "i". *)
Definition period : Regex :=
  seq [AtStart false;
       Group 1
         (alt (map (lit true)
                 ["Morning"; "Afternoon"; "Evening"; "Night"]%string));
       opt (Char (oneOf true ":."));
       Star true space;
       Group 2 (Star true (Char dot));
       AtEnd].

(** The separator of [activities]:
    "/(?:and|,)\s+(?=(?:Visit|Explore|Enjoy|See|Tour|Go to|Check out))/i". *)
Definition activitySeparator : Regex :=
  seq [alt [lit true "and"; lit true ","]; plus true space; Ahead verbs].

(** The pattern of [activityWithTimeMatch]:
    "/^(Visit|...|Check out)\s+(.+?)\s*(?:\(([^)]+)\)|from\s+([^to]+)\s+to\s+([^,]+))/i". *)
Definition activityWithTime : Regex :=
  seq [AtStart false;
       Group 1 verbs;
       plus true space;
       Group 2 (plus false (Char dot));
       Star true space;
       alt [seq [lit true "("; Group 3 (plus true (Char (noneOf true ")")));
                 lit true ")"];
            seq [lit true "from"; plus true space;
                 Group 4 (plus true (Char (noneOf true "to")));
                 plus true space; lit true "to"; plus true space;
                 Group 5 (plus true (Char (noneOf true ",")))]]].

(** The pattern of the list test: "/^(Visit|...|Check out)\s+/i". *)
Definition activityVerb : Regex :=
  seq [AtStart false; Group 1 verbs; plus true space].

(** The pattern of [numberedMatch]: "/^\d+[.)]\s*(.+)$/". *)
Definition numbered : Regex :=
  seq [AtStart false; plus true digit; Char (oneOf false ".)");
       Star true space; Group 1 (plus true (Char dot)); AtEnd].

(** The pattern of [simpleActivityMatch]: "/^(.+?)\s*\(([^)]+)\)$/". *)
Definition simpleActivity : Regex :=
  seq [AtStart false; Group 1 (plus false (Char dot)); Star true space;
       lit false "("; Group 2 (plus true (Char (noneOf false ")")));
       lit false ")"; AtEnd].

(** The pattern tried on [timeRange]: "/\d+:\d+\s*(AM|PM)/i". *)
Definition clockTime : Regex :=
  seq [plus true digit; lit true ":"; plus true digit; Star true space;
       Group 1 (alt [lit true "AM"; lit true "PM"])].

(** The pattern "/^- /gm". *)
Definition dashLine : Regex := seq [AtStart true; lit false "- "].

(** The pattern "/\n{3,}/g". *)
Definition blankLines : Regex :=
  seq [Char (N.eqb 10); Char (N.eqb 10); Char (N.eqb 10);
       Star true (Char (N.eqb 10))].

(** *** [formatMessage] *)

(** The text [  • ] that starts a bullet line. *)
Definition bullet : jsString := [32; 32; 8226; 32].

(** One iteration of the loop over [lines]: the state is [formattedLines]
    and [currentDay]. *)
Definition formatLine (st : list jsString * option jsString)
  (raw : jsString) : list jsString * option jsString :=
  let '(formattedLines, currentDay) := st in
  let line := trim raw in
  if negb (truthy line) && Nat.eqb (List.length formattedLines) 0 then st
  else
    let line := replace dashMarker [] line in
    let keep :=
      if truthy line then (formattedLines ++ [line], currentDay) else st in
    match match_ dayHeader line with
    | Some dayMatch =>
        let spaced :=
          match currentDay with
          | Some _ => formattedLines ++ [[]]
          | None => formattedLines
          end in
        let day := groupText 1 dayMatch in
        let headed := spaced ++ [ofAscii "**" ++ day ++ ofAscii "**"] in
        (if truthy (groupText 2 dayMatch)
         then headed ++ [groupText 2 dayMatch] else headed,
         Some day)
    | None =>
    match match_ period line with
    | Some periodMatch =>
        let headed :=
          formattedLines ++
          [ofAscii "*" ++ groupText 1 periodMatch ++ ofAscii "*"] in
        if truthy (groupText 2 periodMatch) then
          let activities :=
            filter truthy
              (map trim
                 (splitRegex activitySeparator (groupText 2 periodMatch))) in
          (headed ++ map (fun activity => bullet ++ activity) activities,
           currentDay)
        else (headed, currentDay)
    | None =>
    match match_ activityWithTime line with
    | Some m =>
        let activity := trim (groupText 2 m) in
        let timeRange :=
          if truthy (groupText 3 m) then groupText 3 m
          else if truthy (groupText 4 m) && truthy (groupText 5 m)
          then trim (groupText 4 m) ++ ofAscii " - " ++ trim (groupText 5 m)
          else [] in
        (formattedLines ++
         [bullet ++ activity ++
          (if truthy timeRange
           then ofAscii " (" ++ timeRange ++ ofAscii ")" else [])],
         currentDay)
    | None =>
    if test activityVerb line
    then (formattedLines ++ [bullet ++ line], currentDay)
    else
    match match_ numbered line with
    | Some numberedMatch =>
        (formattedLines ++ [bullet ++ groupText 1 numberedMatch], currentDay)
    | None =>
    match match_ simpleActivity line, currentDay with
    | Some m, Some _ =>
        let activity := trim (groupText 1 m) in
        let timeRange := trim (groupText 2 m) in
        if test clockTime timeRange
        then (formattedLines ++
              [bullet ++ activity ++ ofAscii " (" ++ timeRange ++ ofAscii ")"],
              currentDay)
        else keep
    | _, _ => keep
    end end end end end.

Definition formatMessage (text : jsString) : jsString :=
  match text with
  | [] => text
  | _ :: _ =>
      let lines := splitLines text in
      let formattedLines := fst (fold_left formatLine lines ([], None)) in
      let formatted := join [10] formattedLines in
      let formatted := replaceAll dashLine [] formatted in
      let formatted := replaceAll blankLines [10; 10] formatted in
      trim formatted
  end.

(** The number of newlines a string starts with. *)
Fixpoint leadingNewlines (s : jsString) : nat :=
  match s with
  | c :: s' => if 10 =? c then S (leadingNewlines s') else O
  | [] => O
  end.

(** No position of the string starts a run of three newlines. *)
Fixpoint noBlankRun (s : jsString) : bool :=
  match s with
  | [] => true
  | _ :: s' => Nat.ltb (leadingNewlines s) 3 && noBlankRun s'
  end.

End FormatMessage.

(** ** [voice-frontend/src/utils/api.ts]: the base URL of the backend *)

Module ApiBase.

Import Js.
Open Scope string_scope.

(** [s.startsWith(p)]. *)
Definition startsWith (s p : string) : bool := String.prefix p s.

(** [s.endsWith(suffix)]: [s] or one of its tails is [suffix]. *)
Fixpoint endsWith (s suffix : string) : bool :=
  String.eqb s suffix
  || match s with
     | EmptyString => false
     | String _ s' => endsWith s' suffix
     end.

(** [s.replace(/\/$/, '')]: a slash that ends the string is removed. *)
Fixpoint dropTrailingSlash (s : string) : string :=
  match s with
  | EmptyString => EmptyString
  | String c s' =>
      match s' with
      | EmptyString => if Ascii.eqb c "/" then EmptyString else s
      | String _ _ => String c (dropTrailingSlash s')
      end
  end.

(** The statements that compute [API_BASE_URL] when the module loads, as a
    function of the environment variable [VITE_API_BASE_URL]. *)
Definition API_BASE_URL (VITE_API_BASE_URL : option string) : string :=
  let url :=
    dropTrailingSlash
      (if truthyOpt VITE_API_BASE_URL then orEmpty VITE_API_BASE_URL
       else "/api") in
  if negb (startsWith url "http") then
    if negb (startsWith url "/api") then "/api" else url
  else
    if negb (endsWith url "/api") then url ++ "/api" else url.

(** The address [sendVoiceMessage] posts to. *)
Definition voiceChatUrl (VITE_API_BASE_URL : option string) : string :=
  API_BASE_URL VITE_API_BASE_URL ++ "/voice/chat".

End ApiBase.

(** ** [voice-frontend/src/App.tsx]: the effect that runs when the session
    id changes *)

Module VoiceEffects.

Import Js VoiceFrontend.

(** The body of [useEffect(..., [sessionId])], run in the state [st] of the
    render that scheduled it. *)
Definition sessionEffect (env : ToggleEnv) (st : AppState) : AppState :=
  if truthyOpt (sessionId st) then
    let st1 := loadItinerary (session_first env) (sessionId st) st in
    if nonEmpty (sources st) then st1
    else
      let sessionSources :=
        loadSources (session_second env) (sessionId st) in
      if nonEmpty sessionSources then setSources sessionSources st1 else st1
  else st.

(** The events [App] reacts to: a press of the microphone button, a change
    of the session id, a click on a button of [DaySelector]. *)
Inductive Event :=
| toggled (env : ToggleEnv)
| sessionChanged (env : ToggleEnv)
| dayClicked (button : nat).

Section Client.

Variable atob : string -> Result string.
Variable JSON_parse : string -> Result (list Source).

Definition react (st : AppState) (e : Event) : AppState :=
  match e with
  | toggled env => handleToggleListening atob JSON_parse st env
  | sessionChanged env => sessionEffect env st
  | dayClicked button => clickDay button st
  end.

Fixpoint runClient (st : AppState) (events : list Event) : AppState :=
  match events with
  | [] => st
  | e :: events' => runClient (react st e) events'
  end.

End Client.

End VoiceEffects.

(** ** [voice-frontend/src/components]: [ItineraryFeed], [ActivityCard] and
    [TravelConnector] *)

Module ItineraryFeed.

Import Js VoiceFrontend.
Open Scope string_scope.

(** Template interpolation of an integer. *)
Definition showZ (z : Z) : string := NilZero.string_of_int (Z.to_int z).

Definition hr (wholeHours : Z) : string :=
  if (wholeHours =? 1)%Z then "hr" else "hrs".

(** [formatDuration] of [ItineraryFeed.tsx], on whole minutes. *)
Definition formatDuration (minutes : Z) : string :=
  if (60 <=? minutes)%Z then
    let wholeHours := (minutes / 60)%Z in
    let remainingMinutes := Z.rem minutes 60 in
    if (remainingMinutes =? 0)%Z then showZ wholeHours ++ " " ++ hr wholeHours
    else if (remainingMinutes =? 30)%Z then showZ wholeHours ++ ".5 hrs"
    else showZ wholeHours ++ " " ++ hr wholeHours
  else showZ minutes ++ " min".

(** [formatDurationFromMinutes] of [ActivityCard.tsx], on whole minutes. *)
Definition formatDurationFromMinutes (minutes : Z) : string :=
  if (60 <=? minutes)%Z then
    let wholeHours := (minutes / 60)%Z in
    let remainingMinutes := Z.rem minutes 60 in
    if (remainingMinutes =? 0)%Z then showZ wholeHours ++ " " ++ hr wholeHours
    else if (remainingMinutes =? 30)%Z then showZ wholeHours ++ ".5 hrs"
    else showZ wholeHours ++ " " ++ hr wholeHours ++ " " ++
         showZ remainingMinutes ++ "m"
  else showZ minutes ++ " min".

(** [displayDuration] of [ActivityCard]: the [duration] property if it is
    not empty, else the minutes formatted, else nothing. *)
Definition displayDuration (duration : option string)
  (duration_minutes : option Z) : string :=
  if truthyOpt duration then orEmpty duration
  else
    match duration_minutes with
    | Some m => if (m =? 0)%Z then "" else formatDurationFromMinutes m
    | None => ""
    end.

(** [displayTime] of [TravelConnector]. *)
Definition displayTime (time : option string) (minutes : option Z) : string :=
  if truthyOpt time then orEmpty time
  else
    match minutes with
    | Some m => if (m =? 0)%Z then "15 min" else showZ m ++ " min"
    | None => "15 min"
    end.

(** What the feed shows, top to bottom. *)
Inductive FeedElement :=
| NoItinerary
| Heading (label : string)
| Card (name shownDuration : string)
| Connector (shownTime : string)
| NothingScheduled.

Definition card (activity : Activity) : FeedElement :=
  Card (name activity)
    (displayDuration (Some (formatDuration (duration_minutes activity)))
       None).

(** The cards of one section: a connector follows every card but the
    last. *)
Fixpoint sectionCards (connector : FeedElement) (l : list Activity)
  : list FeedElement :=
  match l with
  | [] => []
  | activity :: l' =>
      card activity ::
      match l' with
      | [] => []
      | _ :: _ => connector :: sectionCards connector l'
      end
  end.

(** One section: nothing for an empty list, else the heading, the cards,
    and the connector to the next section when [next] is not empty. *)
Definition feedSection (label : string) (connector : FeedElement)
  (l : list Activity) (toNext : option FeedElement) : list FeedElement :=
  match l with
  | [] => []
  | _ :: _ =>
      (Heading label :: sectionCards connector l) ++
      match toNext with
      | Some c => [c]
      | None => []
      end
  end.

Definition ItineraryFeed (itinerary : option DayItinerary)
  : list FeedElement :=
  match itinerary with
  | None => [NoItinerary]
  | Some itinerary =>
      let morning := morning itinerary in
      let afternoon := afternoon itinerary in
      let evening := evening itinerary in
      feedSection "MORNING" (Connector (displayTime (Some "10 min") None))
        morning
        (if nonEmpty afternoon
         then Some (Connector (displayTime (Some "15 min") None)) else None)
      ++
      feedSection "AFTERNOON" (Connector (displayTime (Some "12 min") None))
        afternoon
        (if nonEmpty evening
         then Some (Connector (displayTime (Some "20 min") None)) else None)
      ++
      feedSection "EVENING" (Connector (displayTime None (Some 15%Z)))
        evening None
      ++
      (if nonEmpty morning || nonEmpty afternoon || nonEmpty evening
       then [] else [NothingScheduled])
  end.

Definition isCard (e : FeedElement) : bool :=
  match e with
  | Card _ _ => true
  | _ => false
  end.

Definition isConnector (e : FeedElement) : bool :=
  match e with
  | Connector _ => true
  | _ => false
  end.

(** A feed read top to bottom, [seen] telling whether a card has been
    passed: every connector stands after a card and before a card. *)
Fixpoint between (seen : bool) (l : list FeedElement) : Prop :=
  match l with
  | [] => True
  | Connector _ :: l' =>
      seen = true /\ existsb isCard l' = true /\ between seen l'
  | Card _ _ :: l' => between true l'
  | _ :: l' => between seen l'
  end.

(** Sample values: a day with two morning activities and one in the
    evening. *)
Definition example_activity (n : string) (minutes : Z) : Activity := {|
  id := n;
  name := n;
  start_time := "09:00";
  end_time := "10:00";
  duration_minutes := minutes;
  category := None;
  location := None
|}.

Definition example_feed_day : DayItinerary := {|
  date := None;
  morning := [example_activity "Amber Fort" 180;
              example_activity "Jal Mahal" 95];
  afternoon := [];
  evening := [example_activity "Chokhi Dhani" 150]
|}.

End ItineraryFeed.

(** ** What a timeline of the text client holds *)

Module Timeline.

Import Js TextFrontend.
Open Scope string_scope.

(** The activities of the cards, top to bottom. *)
Fixpoint cardsOf (l : list Element) : list Activity :=
  match l with
  | [] => []
  | ActivityCard a :: l' => a :: cardsOf l'
  | _ :: l' => cardsOf l'
  end.

(** The travel times shown, top to bottom. *)
Fixpoint travelTimesOf (l : list Element) : list Z :=
  match l with
  | [] => []
  | TravelTime t :: l' => t :: travelTimesOf l'
  | _ :: l' => travelTimesOf l'
  end.

(** The slot headings, top to bottom. *)
Fixpoint headingsOf (l : list Element) : list TimeSlot :=
  match l with
  | [] => []
  | SlotHeading s :: l' => s :: headingsOf l'
  | _ :: l' => headingsOf l'
  end.

(** The travel time an activity carries, if it is positive. *)
Definition positiveTravel (a : Activity) : list Z :=
  match travel_from_previous a with
  | Some t => if (0 <? t)%Z then [t] else []
  | None => []
  end.

(** The timeline without its headings and without the line of an empty
    day: the travel times and the cards, top to bottom. *)
Definition cardsAndTravel (l : list Element) : list Element :=
  filter (fun e => match e with
                   | TravelTime _ | ActivityCard _ => true
                   | _ => false
                   end) l.

(** An activity shown with its travel time: the travel time, if it is
    positive, and then the card. *)
Definition shownWith (a : Activity) : list Element :=
  (map TravelTime (positiveTravel a) ++ [ActivityCard a])%list.

(** A day as a server may send it: the first activity carries a travel
    time of 45 minutes, the second one of -5. *)
Definition example_visit (name : string) (travel : Z) : Activity := {|
  activity_id := None;
  name := name;
  start_time := None;
  end_time := None;
  duration_minutes := Some 60%Z;
  travel_from_previous := Some travel;
  category := None;
  type := None;
  description := None;
  location := None
|}.

Definition example_unchecked_day : DayItinerary := {|
  date := None;
  morning := [example_visit "Hawa Mahal" 45%Z;
              example_visit "Albert Hall" (-5)%Z];
  afternoon := [];
  evening := []
|}.

Definition example_unchecked : Itinerary := {|
  day_1 := Some example_unchecked_day;
  day_2 := None;
  day_3 := None
|}.

(** The outside world in which the server answers with that itinerary. *)
Definition example_unchecked_env : TurnEnv := {|
  now_user := 0;
  now_reply := 1;
  chat := fun _ _ =>
    JsonBody {| api_status := "success";
                api_response := "Here is your day in Jaipur.";
                api_itinerary := Some example_unchecked;
                api_sources := None;
                api_session_id := None;
                api_error := None |}
|}.

End Timeline.

(** ** Further sample values of the voice client *)

Module VoiceSamples.

Import Js VoiceFrontend.
Open Scope string_scope.

(** An answer of the voice endpoint that is not [ok] and carries a JSON
    body with a [detail]. *)
Definition example_error : Response := {|
  ok := false;
  status := 500;
  headers := [];
  json := Ok {| detail := Some "Speech recognition failed";
                message := Some "Internal Server Error" |};
  hasBody := true;
  blob := example_blob
|}.

(** Headers of an answer whose two texts and sources are base64 encoded. *)
Definition example_headers : list (string * string) :=
  [("X-Session-Id", "abc"); ("X-Encoding", "base64");
   ("X-Transcribed-Text", example_base64); ("X-AI-Response", example_base64);
   ("X-Sources", example_base64)].


(** An itinerary with data for the second day only. *)
Definition example_second_day : Itinerary :=
  fun key => if String.eqb key "day_2" then Some example_day else None.

(** The itinerary of a trip of four days, as the session endpoint sends
    it. *)
Definition example_four_days : Itinerary :=
  fun key =>
    if String.eqb key "day_1" || String.eqb key "day_2"
       || String.eqb key "day_3" || String.eqb key "day_4"
    then Some example_day else None.

(** The outside world in which the recorder never settles the promise of
    [stopRecording]. *)
Definition example_stuck : ToggleEnv := {|
  recorder := true;
  startRecording := Settled (Ok tt);
  stopRecording := Pending;
  voice_chat := fun _ => Throw "Failed to fetch";
  session_first := fun _ => SessionRejected "Failed to fetch";
  session_second := fun _ => SessionRejected "Failed to fetch";
  now := 0
|}.

End VoiceSamples.

(** ** The recorder: one recording from start to the resolved blob *)

Module Recording.

Import Js VoiceRecorder.

(** The actions of one recording on the recorder with number [r]: the data
    events before the call of [stopRecording], the call, and the data
    events the browser still dispatches before its [stop] event. *)
Definition session (r : nat) (before after : list Blob) : list Action :=
  (map (dataavailable r) before ++ [callStop] ++
   map (dataavailable r) after)%list.


Definition example_chunk : Blob :=
  {| VoiceFrontend.blob_type := "audio/webm";
     VoiceFrontend.blob_bytes := [31; 67; 182; 117] |}.

End Recording.

(** * Properties *)

(** ** The text client *)

Module TextFrontendFacts.

Import Js TextFrontend Timeline.
Open Scope string_scope.
Open Scope list_scope.

Lemma cloneActivity_same : forall a, cloneActivity a = a.
Proof.
  intros [i n s e d t c ty de [[la lo]|]]; reflexivity.
Qed.

Lemma cloneActivities_same : forall l, map cloneActivity l = l.
Proof.
  induction l as [|a l IH]; simpl.
  - reflexivity.
  - rewrite cloneActivity_same, IH. reflexivity.
Qed.

Lemma cloneDay_same : forall d, cloneDay d = d.
Proof.
  intros [da m a e]. unfold cloneDay. simpl.
  rewrite !cloneActivities_same. reflexivity.
Qed.

Lemma cloneItinerary_same : forall i, cloneItinerary i = i.
Proof.
  intros [[d1|] [d2|] [d3|]]; unfold cloneItinerary; simpl;
    rewrite ?cloneDay_same; reflexivity.
Qed.

(** A turn that does not complete (the request fails, the answer is not
    [ok], or its status is not success) leaves the stored itinerary, the
    sources and the session id as they were. *)
Lemma sendMessage_failed_turn :
  forall st content env,
    useMockData st = false ->
    (forall data, chat env content (sessionId st) = JsonBody data ->
                  api_status data <> "success") ->
    itinerary (sendMessage st content env) = itinerary st /\
    sources (sendMessage st content env) = sources st /\
    sessionId (sendMessage st content env) = sessionId st.
Proof.
  intros st content env Hmock Hfail. unfold sendMessage. rewrite Hmock.
  destruct (chat env content (sessionId st)) as [m|n|data] eqn:E; simpl;
    try (repeat split; reflexivity).
  unfold applyResponse.
  destruct (String.eqb_spec (api_status data) "success") as [Hs|Hs].
  - exfalso. exact (Hfail data eq_refl Hs).
  - simpl. repeat split; reflexivity.
Qed.

Lemma sendMessage_failed_turn_witness :
  itinerary (sendMessage example_state "Plan a trip" example_failing)
  = Some example_previous /\
  sources (sendMessage example_state "Plan a trip" example_failing) = [] /\
  sessionId (sendMessage example_state "Plan a trip" example_failing)
  = Some "s-1".
Proof.
  apply (sendMessage_failed_turn example_state "Plan a trip" example_failing
           eq_refl).
  intros data H. discriminate H.
Defined.

(** The reply the text client shows for an answer with status 500. *)
Example sendMessage_http_error :
  map content
    (messages (sendMessage example_state "Plan a trip" example_failing))
  = ["Plan a trip";
     "Error: HTTP error! status: 500. You can enable mock data mode to test the UI."].
Proof.
  reflexivity.
Qed.

(** With mock data on, the turn stores the mock itinerary whole. *)
Lemma sendMessage_mock_turn :
  forall st content env,
    useMockData st = true ->
    itinerary (sendMessage st content env) = Some mockItinerary /\
    sources (sendMessage st content env) = mockSources.
Proof.
  intros st content env Hmock. unfold sendMessage. rewrite Hmock. simpl.
  split; reflexivity.
Qed.

(** C2. For every completed turn ([status] is success) whose response carries
    an itinerary, the stored itinerary after the turn is exactly the
    itinerary of the response, whatever was stored before; for every
    completed turn whose response carries none, the stored itinerary is the
    one stored before the turn. *)
Theorem sendMessage_replaces_itinerary :
  forall st content env data,
    useMockData st = false ->
    chat env content (sessionId st) = JsonBody data ->
    api_status data = "success" ->
    (forall it, api_itinerary data = Some it ->
                itinerary (sendMessage st content env) = Some it) /\
    (api_itinerary data = None ->
     itinerary (sendMessage st content env) = itinerary st).
Proof.
  intros st content env data Hmock Hchat Hstatus.
  unfold sendMessage. rewrite Hmock, Hchat. unfold applyResponse.
  rewrite Hstatus. simpl. split.
  - intros it Hit. rewrite Hit. rewrite cloneItinerary_same. reflexivity.
  - intros Hnone. rewrite Hnone. reflexivity.
Qed.

Lemma sendMessage_replaces_itinerary_witness :
  itinerary (sendMessage example_state "Plan a 2-day trip" example_env)
  = Some mockItinerary.
Proof.
  apply (proj1 (sendMessage_replaces_itinerary example_state
                  "Plan a 2-day trip" example_env example_data
                  eq_refl eq_refl eq_refl)).
  reflexivity.
Defined.

(** *** The timeline of a day *)

Lemma placed_true : forall l seen, placed seen l -> placed true l.
Proof.
  induction l as [|e l IH]; intros seen H; simpl in *.
  - exact I.
  - destruct e as [s|t|a|]; simpl in *.
    + eauto.
    + destruct H as (_ & Ht & Hc & Hp). repeat split; eauto.
    + exact H.
    + eauto.
Qed.

Lemma placed_app :
  forall l1 l2 seen,
    placed seen l1 ->
    placed (seen || existsb isCard l1) l2 ->
    placed seen (l1 ++ l2).
Proof.
  induction l1 as [|e l1 IH]; intros l2 seen H1 H2; simpl in *.
  - rewrite orb_false_r in H2. exact H2.
  - destruct e as [s|t|a|]; simpl in *.
    + apply IH; assumption.
    + destruct H1 as (Hs & Ht & Hc & Hp). repeat split; try assumption.
      * destruct l1 as [|[s'|t'|a'|] l1']; simpl in *; try contradiction.
        exact Hc.
      * apply IH; assumption.
    + apply IH.
      * exact H1.
      * rewrite orb_true_r in H2. exact H2.
    + apply IH; assumption.
Qed.

Lemma placed_at :
  forall pre l seen t post,
    placed seen l ->
    l = pre ++ TravelTime t :: post ->
    (0 < t)%Z /\
    (exists a post',
        post = ActivityCard a :: post' /\ travel_from_previous a = Some t) /\
    (seen = true \/ exists b, In (ActivityCard b) pre).
Proof.
  induction pre as [|e pre IH]; intros l seen t post H E; subst l;
    simpl in *.
  - destruct H as (Hs & Ht & Hc & _). split; [exact Ht|]. split.
    + destruct post as [|[s'|t'|a'|] post']; try contradiction.
      exists a', post'. split; [reflexivity|exact Hc].
    + left. exact Hs.
  - destruct e as [s|t0|a|]; simpl in H.
    + destruct (IH _ _ _ _ H eq_refl) as (A & B & [C|[b C]]).
      * repeat split; auto.
      * repeat split; auto. right. exists b. right. exact C.
    + destruct H as (_ & _ & _ & H).
      destruct (IH _ _ _ _ H eq_refl) as (A & B & [C|[b C]]).
      * repeat split; auto.
      * repeat split; auto. right. exists b. right. exact C.
    + destruct (IH _ _ _ _ H eq_refl) as (A & B & [C|[b C]]).
      * repeat split; auto. right. exists a. left. reflexivity.
      * repeat split; auto. right. exists b. right. exact C.
    + destruct (IH _ _ _ _ H eq_refl) as (A & B & [C|[b C]]).
      * repeat split; auto.
      * repeat split; auto. right. exists b. right. exact C.
Qed.

Lemma renderCards_placed :
  forall d slot l index seen,
    (showTravelTime d index slot = true -> seen = true) ->
    placed seen (renderCards d slot index l).
Proof.
  intros d slot. induction l as [|a l IH]; intros index seen Hseen; simpl.
  - exact I.
  - assert (Hrest : placed true (renderCards d slot (S index) l))
      by (apply IH; reflexivity).
    unfold renderActivityCard.
    destruct (travel_from_previous a) as [t|] eqn:Et.
    + destruct (showTravelTime d index slot) eqn:Es; simpl.
      * destruct (0 <? t)%Z eqn:Ep; simpl.
        -- repeat split; auto. apply Z.ltb_lt. exact Ep.
        -- exact Hrest.
      * exact Hrest.
    + exact Hrest.
Qed.

Lemma renderCards_cards :
  forall d slot l index,
    existsb isCard (renderCards d slot index l) = nonEmpty l.
Proof.
  intros d slot l index. destruct l as [|a l]; simpl.
  - reflexivity.
  - unfold renderActivityCard.
    destruct (travel_from_previous a) as [t|];
      [destruct (showTravelTime d index slot && (0 <? t)%Z)|];
      simpl; rewrite ?orb_true_r; reflexivity.
Qed.

Lemma renderTimeSlot_placed :
  forall d slot l seen,
    (showTravelTime d 0 slot = true -> seen = true) ->
    placed seen (renderTimeSlot d slot l).
Proof.
  intros d slot l seen H. destruct l as [|a l].
  - exact I.
  - unfold renderTimeSlot. cbn [placed].
    apply renderCards_placed. exact H.
Qed.

Lemma renderTimeSlot_cards :
  forall d slot l, existsb isCard (renderTimeSlot d slot l) = nonEmpty l.
Proof.
  intros d slot l. destruct l as [|a l].
  - reflexivity.
  - unfold renderTimeSlot. cbn [existsb isCard orb].
    apply renderCards_cards.
Qed.

Lemma renderDay_placed : forall d, placed false (renderDay d).
Proof.
  intros d. unfold renderDay.
  apply placed_app.
  - apply renderTimeSlot_placed. unfold showTravelTime. simpl. auto.
  - rewrite renderTimeSlot_cards. simpl. apply placed_app.
    + apply renderTimeSlot_placed. unfold showTravelTime. simpl.
      rewrite orb_false_r. auto.
    + rewrite renderTimeSlot_cards. apply placed_app.
      * apply renderTimeSlot_placed. unfold showTravelTime. simpl.
        intros H. rewrite orb_comm. exact H.
      * destruct (nonEmpty (morning d) || nonEmpty (afternoon d)
                  || nonEmpty (evening d)); exact I.
Qed.

Lemma cardsAndTravel_app :
  forall l1 l2,
    cardsAndTravel (l1 ++ l2) = cardsAndTravel l1 ++ cardsAndTravel l2.
Proof.
  intros l1 l2. unfold cardsAndTravel. apply filter_app.
Qed.

Lemma renderActivityCard_body :
  forall d a index slot,
    cardsAndTravel (renderActivityCard d a index slot)
    = if showTravelTime d index slot then shownWith a else [ActivityCard a].
Proof.
  intros d a index slot. unfold renderActivityCard, shownWith, positiveTravel.
  destruct (travel_from_previous a) as [t|];
    destruct (showTravelTime d index slot); simpl;
    try destruct (0 <? t)%Z; reflexivity.
Qed.

Lemma renderCards_body :
  forall d slot l index,
    cardsAndTravel (renderCards d slot index l)
    = match l with
      | [] => []
      | a :: l' =>
          (if showTravelTime d index slot then shownWith a
           else [ActivityCard a]) ++ flat_map shownWith l'
      end.
Proof.
  intros d slot. induction l as [|a l IH]; intros index; [reflexivity|].
  cbn [renderCards]. rewrite cardsAndTravel_app, renderActivityCard_body.
  rewrite IH. f_equal. destruct l as [|b l]; reflexivity.
Qed.

Lemma renderTimeSlot_body :
  forall d slot l,
    cardsAndTravel (renderTimeSlot d slot l)
    = match l with
      | [] => []
      | a :: l' =>
          (if showTravelTime d 0 slot then shownWith a
           else [ActivityCard a]) ++ flat_map shownWith l'
      end.
Proof.
  intros d slot [|a l]; [reflexivity|].
  unfold renderTimeSlot.
  change (cardsAndTravel (SlotHeading slot :: renderCards d slot 0 (a :: l)))
    with (cardsAndTravel (renderCards d slot 0 (a :: l))).
  apply renderCards_body.
Qed.

(** C6, as the code has it.  Without its headings, the timeline of every
    itinerary day is the card of the first activity of the day followed, for
    every later activity in order, by its travel time if that is greater
    than 0 and then its card.  So every travel time shown is greater than 0,
    stands directly before the card of the activity that carries it, and has
    a card before it; none is shown for the first activity of the day; and
    every later activity whose travel time is greater than 0 has it shown.
    In the mock itinerary every activity carries a travel time of at least
    0, and the first activity of each day carries 0, which is not shown. *)
Theorem travel_time_precedes_its_activity :
  (forall d : DayItinerary,
      cardsAndTravel (renderDay d)
      = match dayActivities d with
        | [] => []
        | first :: later => ActivityCard first :: flat_map shownWith later
        end) /\
  (forall (d : DayItinerary) pre t post,
      renderDay d = pre ++ TravelTime t :: post ->
      (0 < t)%Z /\
      (exists a post',
          post = ActivityCard a :: post' /\
          travel_from_previous a = Some t) /\
      (exists b, In (ActivityCard b) pre)) /\
  (forall d, In d (days mockItinerary) ->
      (forall a, In a (dayActivities d) ->
         exists t, travel_from_previous a = Some t /\ (0 <= t)%Z) /\
      (exists a, hd_error (dayActivities d) = Some a /\
                 travel_from_previous a = Some 0%Z)).
Proof.
  split; [|split].
  - intros d. unfold renderDay, dayActivities.
    rewrite !cardsAndTravel_app, !renderTimeSlot_body.
    unfold showTravelTime.
    destruct (morning d) as [|m ml], (afternoon d) as [|a al],
      (evening d) as [|e el]; simpl;
      repeat (rewrite ?flat_map_app, ?app_nil_r, <- ?app_assoc; simpl);
      reflexivity.
  - intros d pre t post E.
    destruct (placed_at pre _ _ t post (renderDay_placed d) E)
      as (Ht & Hc & [Hs|Hb]).
    + discriminate Hs.
    + split; [exact Ht|]. split; assumption.
  - intros d Hd. simpl in Hd. destruct Hd as [Hd|[Hd|[]]]; subst d; split.
    + intros a Ha. simpl in Ha.
      destruct Ha as [Ha|[Ha|[Ha|[]]]]; subst a; simpl;
        eexists; (split; [reflexivity|lia]).
    + eexists. split; reflexivity.
    + intros a Ha. simpl in Ha.
      destruct Ha as [Ha|[Ha|[]]]; subst a; simpl;
        eexists; (split; [reflexivity|lia]).
    + eexists. split; reflexivity.
Qed.

Lemma travel_time_precedes_its_activity_witness :
  (0 < 30)%Z /\
  (exists a post',
      skipn 4 (renderDay mockDay1) = ActivityCard a :: post' /\
      travel_from_previous a = Some 30%Z) /\
  (exists b, In (ActivityCard b) (firstn 3 (renderDay mockDay1))).
Proof.
  apply (proj1 (proj2 travel_time_precedes_its_activity) mockDay1
           (firstn 3 (renderDay mockDay1)) 30%Z
           (skipn 4 (renderDay mockDay1))).
  reflexivity.
Defined.

(** C6, as stated, fails: the server answers with a day whose first
    activity carries a travel time of 45 and whose second carries -5; the
    client stores the itinerary as it came, and the timeline of the day
    shows the two cards and no travel time. *)
Lemma travel_time_not_checked :
  itinerary (sendMessage example_state "A day in Jaipur"
               example_unchecked_env) = Some example_unchecked /\
  day_1 example_unchecked = Some example_unchecked_day /\
  (exists a,
      hd_error (dayActivities example_unchecked_day) = Some a /\
      travel_from_previous a = Some 45%Z) /\
  (exists a,
      In a (dayActivities example_unchecked_day) /\
      travel_from_previous a = Some (-5)%Z /\ (-5 < 0)%Z) /\
  renderDay example_unchecked_day
  = [SlotHeading slot_morning;
     ActivityCard (example_visit "Hawa Mahal" 45%Z);
     ActivityCard (example_visit "Albert Hall" (-5)%Z)].
Proof.
  split; [reflexivity|]. split; [reflexivity|]. split; [|split].
  - eexists. split; reflexivity.
  - eexists. split; [right; left; reflexivity|]. split; [reflexivity|lia].
  - reflexivity.
Defined.

End TextFrontendFacts.

(** ** The days the voice client can show *)

Module ItineraryFacts.

Import Js VoiceFrontend VoiceEffects VoiceSamples.
Open Scope string_scope.
Open Scope list_scope.

Lemma dayOf_first_three :
  forall it,
    dayOf it 1 = day_1 it /\ dayOf it 2 = day_2 it /\ dayOf it 3 = day_3 it.
Proof.
  intros it. repeat split.
Qed.

Lemma getAvailableDays_offered :
  forall i d, In d (getAvailableDays i) -> In d [1; 2; 3].
Proof.
  intros [it|] d; [|exact (fun H => H)].
  unfold getAvailableDays.
  destruct (day_1 it), (day_2 it), (day_3 it); simpl; intuition.
Qed.

Lemma getAvailableDays_stored :
  forall it d day,
    In d [1; 2; 3] ->
    dayOf it d = Some day ->
    In d (getAvailableDays (Some it)).
Proof.
  intros it d day Hd Hday.
  destruct (dayOf_first_three it) as (E1 & E2 & E3).
  unfold getAvailableDays.
  destruct Hd as [<-|[<-|[<-|[]]]].
  - rewrite <- E1, Hday. simpl. left. reflexivity.
  - rewrite <- E2, Hday.
    destruct (day_1 it), (day_3 it); simpl; auto.
  - rewrite <- E3, Hday.
    destruct (day_1 it), (day_2 it); simpl; auto.
Qed.

Section Client.

Variable atob : string -> Result string.
Variable JSON_parse : string -> Result (list Source).

Lemma loadItinerary_selectedDay :
  forall server captured st,
    selectedDay (loadItinerary server captured st) = selectedDay st.
Proof.
  intros server captured st. unfold loadItinerary.
  destruct (truthyOpt captured); [|reflexivity].
  destruct (getItinerary server (orEmpty captured)) as [d|m]; [|reflexivity].
  destruct (current_itinerary d); reflexivity.
Qed.

Lemma afterResponse_selectedDay :
  forall env captured v st,
    selectedDay (afterResponse env captured v st) = selectedDay st.
Proof.
  intros env captured v st. unfold afterResponse.
  destruct (nonEmpty (res_sources v));
    [|destruct (nonEmpty (loadSources (session_second env)
                            (sessionId captured))); simpl];
    rewrite loadItinerary_selectedDay;
    destruct (truthy (res_sessionId v)), (truthy (transcribedText v)),
      (truthy (aiResponse v)); reflexivity.
Qed.

Lemma react_selectedDay :
  forall st e,
    In (selectedDay st) [1; 2; 3] ->
    In (selectedDay (react atob JSON_parse st e)) [1; 2; 3].
Proof.
  intros st [env|env|button] H; cbn [react].
  - unfold handleToggleListening.
    destruct (recorder env); simpl; [|exact H].
    destruct (isListening st); simpl.
    + destruct (stopRecording env) as [[audioBlob|m]|]; simpl;
        try exact H.
      destruct (sendVoiceMessage atob JSON_parse (voice_chat env) audioBlob
                  (sessionId st)) as [v|m]; simpl; [|exact H].
      rewrite afterResponse_selectedDay. exact H.
    + destruct (startRecording env) as [[u|m]|]; exact H.
  - unfold sessionEffect.
    destruct (truthyOpt (sessionId st)); [|exact H].
    destruct (nonEmpty (sources st));
      [|destruct (nonEmpty (loadSources (session_second env) (sessionId st)));
        simpl];
      rewrite loadItinerary_selectedDay; exact H.
  - unfold clickDay.
    destruct (nth_error (getAvailableDays (itinerary st)) button) as [day|]
      eqn:E; [|exact H].
    apply (getAvailableDays_offered (itinerary st)).
    apply nth_error_In with (n := button). exact E.
Qed.

Lemma runClient_selectedDay :
  forall events st,
    In (selectedDay st) [1; 2; 3] ->
    In (selectedDay (runClient atob JSON_parse st events)) [1; 2; 3].
Proof.
  induction events as [|e events IH]; intros st H; simpl; [exact H|].
  apply IH. apply react_selectedDay. exact H.
Qed.

(** C3, as the code has it.  The client presents the days 1, 2 and 3 and no
    other: [getAvailableDays] offers only days among 1, 2 and 3, whatever
    the itinerary holds; in every state the client reaches, by presses of
    the microphone button, changes of the session and clicks on the day
    buttons, the selected day is one of them, so the day shown is what the
    itinerary holds under [day_1], [day_2] or [day_3]; and each of these
    three that the itinerary holds is offered, and shown once its button is
    clicked. *)
Theorem days_presented :
  (forall i d, In d (getAvailableDays i) -> In d [1; 2; 3]) /\
  (forall events,
      let st := runClient atob JSON_parse initial events in
      In (selectedDay st) [1; 2; 3] /\
      forall it,
        itinerary st = Some it ->
        getDayItinerary st = day_1 it \/
        getDayItinerary st = day_2 it \/
        getDayItinerary st = day_3 it) /\
  (forall st it d day,
      itinerary st = Some it ->
      In d [1; 2; 3] ->
      dayOf it d = Some day ->
      exists button,
        nth_error (getAvailableDays (itinerary st)) button = Some d /\
        getDayItinerary (clickDay button st) = Some day).
Proof.
  split; [exact getAvailableDays_offered|]. split.
  - intros events st.
    assert (H : In (selectedDay st) [1; 2; 3]).
    { apply runClient_selectedDay. left. reflexivity. }
    split; [exact H|].
    intros it Hit. unfold getDayItinerary. rewrite Hit.
    destruct (dayOf_first_three it) as (E1 & E2 & E3).
    destruct H as [<-|[<-|[<-|[]]]]; auto.
  - intros st it d day Hit Hd Hday.
    pose proof (getAvailableDays_stored it d day Hd Hday) as Hin.
    apply In_nth_error in Hin. destruct Hin as [button Hb].
    exists button. rewrite Hit. split; [exact Hb|].
    unfold clickDay. rewrite Hit, Hb.
    unfold getDayItinerary. cbn [itinerary selectedDay setSelectedDay].
    rewrite Hit. exact Hday.
Qed.

End Client.

Lemma days_presented_witness :
  exists button,
    nth_error (getAvailableDays (itinerary example_state)) button = Some 1 /\
    getDayItinerary (clickDay button example_state) = Some example_day.
Proof.
  apply (proj2 (proj2 (days_presented example_atob example_parse))
           example_state example_itinerary 1 example_day).
  - reflexivity.
  - left. reflexivity.
  - reflexivity.
Defined.

(** C3, as stated, fails: the itinerary of a trip of four days holds
    [day_4], and the lookup that [getDayItinerary] does would find it under
    the key of day 4, but [getAvailableDays] offers the days 1, 2 and 3
    only, so the fourth day has no button and is never selected. *)
Lemma fourth_day_not_presented :
  dayOf example_four_days 4 = Some example_day /\
  getAvailableDays (Some example_four_days) = [1; 2; 3] /\
  ~ In 4 (getAvailableDays (Some example_four_days)).
Proof.
  split; [reflexivity|]. split; [reflexivity|].
  intros [H|[H|[H|[]]]]; discriminate H.
Defined.

End ItineraryFacts.

(** ** The voice client *)

Module VoiceFrontendFacts.

Import Js VoiceFrontend.
Open Scope string_scope.
Open Scope list_scope.

Section Turn.

Variable atob : string -> Result string.
Variable JSON_parse : string -> Result (list Source).

Lemma truthy_nonempty : forall s, s <> "" -> truthy s = true.
Proof.
  intros [|c s] H; [contradiction H; reflexivity | reflexivity].
Qed.

Lemma nonEmpty_true : forall (A : Type) (l : list A), l <> [] -> nonEmpty l = true.
Proof.
  intros A [|x l] H; [contradiction H; reflexivity | reflexivity].
Qed.

Lemma loadItinerary_keeps :
  forall server captured st,
    sessionId (loadItinerary server captured st) = sessionId st /\
    sources (loadItinerary server captured st) = sources st /\
    transcript (loadItinerary server captured st) = transcript st.
Proof.
  intros server captured st. unfold loadItinerary.
  destruct (truthyOpt captured); [|repeat split].
  destruct (getItinerary server (orEmpty captured)) as [d|m]; [|repeat split].
  destruct (current_itinerary d); repeat split.
Qed.

(** The state after a turn in which the recording stopped and the voice
    endpoint answered. *)
Lemma handleToggleListening_completed :
  forall st env audioBlob v,
    recorder env = true ->
    isListening st = true ->
    stopRecording env = Settled (Ok audioBlob) ->
    sendVoiceMessage atob JSON_parse (voice_chat env) audioBlob (sessionId st)
      = Ok v ->
    handleToggleListening atob JSON_parse st env
    = setFlags false false (afterResponse env st v (setFlags false true st)).
Proof.
  intros st env audioBlob v Hr Hl Hstop Hsend.
  unfold handleToggleListening. rewrite Hr, Hl, Hstop. simpl.
  rewrite Hsend. simpl.
  set (st' := afterResponse env st v (setFlags false true st)).
  assert (H : isListening st' = false).
  { unfold st', afterResponse.
    repeat match goal with
           | |- context [if ?b then _ else _] => destruct b
           end;
      unfold loadItinerary;
      repeat match goal with
             | |- context [if ?b then _ else _] => destruct b
             | |- context [match ?x with _ => _ end] => destruct x
             end; reflexivity. }
  rewrite H. reflexivity.
Qed.

(** C1. For every turn in which the recording cannot be delivered to the
    backend (the promise of the recorder is rejected, or it is resolved and
    [sendVoiceMessage] throws because the request fails or the answer is not
    [ok]), the only message added to the transcript is the fixed apology,
    and the itinerary, the sources and the session id are what they were
    before the turn. *)
Theorem failed_turn_shows_apology :
  forall st env stopped,
    recorder env = true ->
    isListening st = true ->
    stopRecording env = Settled stopped ->
    (forall audioBlob,
        stopped = Ok audioBlob ->
        exists m,
          sendVoiceMessage atob JSON_parse (voice_chat env) audioBlob
            (sessionId st) = Throw m) ->
    transcript (handleToggleListening atob JSON_parse st env)
    = transcript st ++
      [{| type := assistant;
          text := "Sorry, I encountered an error processing your request. Please try again.";
          timestamp := Some (now env) |}] /\
    itinerary (handleToggleListening atob JSON_parse st env) = itinerary st /\
    sources (handleToggleListening atob JSON_parse st env) = sources st /\
    sessionId (handleToggleListening atob JSON_parse st env) = sessionId st.
Proof.
  intros st env stopped Hr Hl Hstop Hfail.
  unfold handleToggleListening. rewrite Hr, Hl, Hstop. simpl.
  destruct stopped as [audioBlob|m]; simpl.
  - destruct (Hfail audioBlob eq_refl) as [m Hm]. rewrite Hm. simpl.
    repeat split; reflexivity.
  - repeat split; reflexivity.
Qed.

(** The session id that [sendVoiceMessage] returns. *)
Lemma sendVoiceMessage_session_id :
  forall server audioBlob supplied response v,
    server (formData audioBlob supplied) = Ok response ->
    sendVoiceMessage atob JSON_parse server audioBlob supplied = Ok v ->
    res_sessionId v
    = orEmpty (orElse (headers_get (headers response) "X-Session-Id")
                 supplied).
Proof.
  intros server audioBlob supplied response v Hserver Hsend.
  unfold sendVoiceMessage in Hsend. rewrite Hserver in Hsend. simpl in Hsend.
  destruct (ok response); simpl in Hsend; [|discriminate].
  destruct (decodeHeaders atob JSON_parse response) as [[t a] l].
  injection Hsend as <-. reflexivity.
Qed.

(** C5, as the code has it. For every voice-chat response the session id
    returned to the caller equals the X-Session-Id value when the header is
    present and not empty; when the header is absent or empty it equals the
    session id the caller supplied, and is the empty string when the caller
    supplied none.  A supplied id that is not empty is posted in the form
    field [session_id], and after a completed turn the client holds the
    header value if there is a non-empty one and otherwise the id it held
    before. *)
Theorem session_id_round_trip :
  (forall server audioBlob supplied response v,
      server (formData audioBlob supplied) = Ok response ->
      sendVoiceMessage atob JSON_parse server audioBlob supplied = Ok v ->
      (forall h,
          headers_get (headers response) "X-Session-Id" = Some h ->
          h <> "" -> res_sessionId v = h) /\
      (headers_get (headers response) "X-Session-Id" = None \/
       headers_get (headers response) "X-Session-Id" = Some "" ->
       (forall s, supplied = Some s -> res_sessionId v = s) /\
       (supplied = None -> res_sessionId v = ""))) /\
  (forall audioBlob s,
      s <> "" ->
      In ("session_id", Field s) (formData audioBlob (Some s))) /\
  (forall st env audioBlob response v,
      recorder env = true ->
      isListening st = true ->
      stopRecording env = Settled (Ok audioBlob) ->
      voice_chat env (formData audioBlob (sessionId st)) = Ok response ->
      sendVoiceMessage atob JSON_parse (voice_chat env) audioBlob
        (sessionId st) = Ok v ->
      sessionId (handleToggleListening atob JSON_parse st env)
      = match headers_get (headers response) "X-Session-Id" with
        | Some h => if truthy h then Some h else sessionId st
        | None => sessionId st
        end).
Proof.
  split; [|split].
  - intros server audioBlob supplied response v Hserver Hsend.
    rewrite (sendVoiceMessage_session_id _ _ _ _ _ Hserver Hsend).
    split.
    + intros h Hh Hne. rewrite Hh. unfold orElse. simpl.
      rewrite (truthy_nonempty _ Hne). simpl.
      rewrite (truthy_nonempty _ Hne). reflexivity.
    + intros Habsent.
      assert (E : orElse (headers_get (headers response) "X-Session-Id")
                    supplied = supplied).
      { destruct Habsent as [-> | ->]; reflexivity. }
      rewrite E. split.
      * intros s ->. simpl. destruct s; reflexivity.
      * intros ->. reflexivity.
  - intros audioBlob s Hne. unfold formData.
    rewrite (truthy_nonempty _ Hne). simpl. right. left. reflexivity.
  - intros st env audioBlob response v Hr Hl Hstop Hserver Hsend.
    rewrite (handleToggleListening_completed _ _ _ _ Hr Hl Hstop Hsend).
    pose proof (sendVoiceMessage_session_id _ _ _ _ _ Hserver Hsend) as Hid.
    assert (Hafter :
      sessionId (afterResponse env st v (setFlags false true st))
      = if truthy (res_sessionId v) then Some (res_sessionId v)
        else sessionId st).
    { unfold afterResponse.
      destruct (nonEmpty (res_sources v)).
      - rewrite (proj1 (loadItinerary_keeps _ _ _)).
        destruct (truthy (res_sessionId v)), (truthy (transcribedText v)),
          (truthy (aiResponse v)); reflexivity.
      - match goal with
        | |- sessionId (if ?b then _ else _) = _ => destruct b
        end; simpl; rewrite (proj1 (loadItinerary_keeps _ _ _));
          destruct (truthy (res_sessionId v)), (truthy (transcribedText v)),
            (truthy (aiResponse v)); reflexivity. }
    simpl. rewrite Hafter, Hid. unfold orElse.
    destruct (headers_get (headers response) "X-Session-Id") as [h|]; simpl.
    + destruct (truthy h) eqn:Eh; simpl.
      * rewrite Eh. simpl. rewrite Eh. reflexivity.
      * destruct (sessionId st) as [s|]; simpl; [|reflexivity].
        destruct (truthy s) eqn:Es; simpl; [rewrite Es|]; reflexivity.
    + destruct (sessionId st) as [s|]; simpl; [|reflexivity].
      destruct (truthy s) eqn:Es; simpl; [rewrite Es|]; reflexivity.
Qed.

(** The sources that [sendVoiceMessage] returns without the base64
    encoding. *)
Lemma decodeHeaders_plain :
  forall response,
    headers_get (headers response) "X-Encoding" <> Some "base64" ->
    snd (decodeHeaders atob JSON_parse response) = [].
Proof.
  intros response H. unfold decodeHeaders.
  destruct (headers_get (headers response) "X-Encoding") as [e|];
    [|reflexivity].
  destruct (String.eqb_spec e "base64") as [->|Hne]; [|reflexivity].
  contradiction H. reflexivity.
Qed.

(** C9. For every voice-chat response that is [ok] and whose X-Encoding
    header is not exactly base64, [sendVoiceMessage] returns an empty
    sources list, whatever the other headers say; and whenever it returns a
    sources list that is not empty, the X-Encoding header of the response
    was base64. *)
Theorem sources_need_base64 :
  (forall server audioBlob supplied response,
      server (formData audioBlob supplied) = Ok response ->
      ok response = true ->
      headers_get (headers response) "X-Encoding" <> Some "base64" ->
      exists v,
        sendVoiceMessage atob JSON_parse server audioBlob supplied = Ok v /\
        res_sources v = []) /\
  (forall server audioBlob supplied v,
      sendVoiceMessage atob JSON_parse server audioBlob supplied = Ok v ->
      res_sources v <> [] ->
      exists response,
        server (formData audioBlob supplied) = Ok response /\
        headers_get (headers response) "X-Encoding" = Some "base64").
Proof.
  split.
  - intros server audioBlob supplied response Hserver Hok Henc.
    unfold sendVoiceMessage. rewrite Hserver. simpl. rewrite Hok. simpl.
    pose proof (decodeHeaders_plain response Henc) as Hd.
    destruct (decodeHeaders atob JSON_parse response) as [[t a] l].
    simpl in Hd. subst l. eexists. split; reflexivity.
  - intros server audioBlob supplied v Hsend Hne.
    unfold sendVoiceMessage in Hsend.
    destruct (server (formData audioBlob supplied)) as [response|m] eqn:Hs;
      simpl in Hsend; [|discriminate].
    exists response. split; [reflexivity|].
    destruct (ok response); simpl in Hsend; [|discriminate].
    destruct (headers_get (headers response) "X-Encoding") as [e|] eqn:He.
    + destruct (String.eqb_spec e "base64") as [->|Hx]; [reflexivity|].
      exfalso. apply Hne.
      assert (Hd : snd (decodeHeaders atob JSON_parse response) = []).
      { apply decodeHeaders_plain. rewrite He. congruence. }
      destruct (decodeHeaders atob JSON_parse response) as [[t a] l].
      injection Hsend as <-. exact Hd.
    + exfalso. apply Hne.
      assert (Hd : snd (decodeHeaders atob JSON_parse response) = []).
      { apply decodeHeaders_plain. rewrite He. discriminate. }
      destruct (decodeHeaders atob JSON_parse response) as [[t a] l].
      injection Hsend as <-. exact Hd.
Qed.

(** C7, as the code has it. After every completed turn whose response
    carries a non-empty sources list, the list the client holds is exactly
    that list; when the response carries none, the list becomes the sources
    stored for the session the turn started in, if there are any, and is
    otherwise what it was before the turn. *)
Theorem sources_replaced_by_response :
  forall st env audioBlob v,
    recorder env = true ->
    isListening st = true ->
    stopRecording env = Settled (Ok audioBlob) ->
    sendVoiceMessage atob JSON_parse (voice_chat env) audioBlob (sessionId st)
      = Ok v ->
    (res_sources v <> [] ->
     sources (handleToggleListening atob JSON_parse st env) = res_sources v)
    /\
    (res_sources v = [] ->
     loadSources (session_second env) (sessionId st) <> [] ->
     sources (handleToggleListening atob JSON_parse st env)
     = loadSources (session_second env) (sessionId st)) /\
    (res_sources v = [] ->
     loadSources (session_second env) (sessionId st) = [] ->
     sources (handleToggleListening atob JSON_parse st env) = sources st).
Proof.
  intros st env audioBlob v Hr Hl Hstop Hsend.
  rewrite (handleToggleListening_completed _ _ _ _ Hr Hl Hstop Hsend).
  simpl. unfold afterResponse. repeat split.
  - intros Hne. rewrite (nonEmpty_true _ _ Hne).
    rewrite (proj1 (proj2 (loadItinerary_keeps _ _ _))).
    destruct (truthy (res_sessionId v)), (truthy (transcribedText v)),
      (truthy (aiResponse v)); reflexivity.
  - intros He Hne. rewrite He. simpl. rewrite (nonEmpty_true _ _ Hne).
    reflexivity.
  - intros He Hn. rewrite He, Hn. simpl.
    rewrite (proj1 (proj2 (loadItinerary_keeps _ _ _))).
    destruct (truthy (res_sessionId v)), (truthy (transcribedText v)),
      (truthy (aiResponse v)); reflexivity.
Qed.

End Turn.

Lemma failed_turn_shows_apology_witness :
  transcript (handleToggleListening example_atob example_parse example_state
                example_offline)
  = transcript example_state ++
    [{| type := assistant;
        text := "Sorry, I encountered an error processing your request. Please try again.";
        timestamp := Some 0 |}] /\
  itinerary (handleToggleListening example_atob example_parse example_state
               example_offline) = Some example_itinerary /\
  sources (handleToggleListening example_atob example_parse example_state
             example_offline) = [osm] /\
  sessionId (handleToggleListening example_atob example_parse example_state
               example_offline) = Some "abc".
Proof.
  apply (failed_turn_shows_apology example_atob example_parse example_state
           example_offline (Ok example_blob) eq_refl eq_refl eq_refl).
  intros audioBlob _. exists "Failed to fetch". reflexivity.
Defined.

(** C5, as stated, fails: the server answers with an X-Session-Id header
    that is present and empty while the caller supplied the id abc; the id
    returned is abc, not the value of the header. *)
Lemma session_id_empty_header :
  exists v,
    sendVoiceMessage example_atob example_parse
      (fun _ => Ok (example_response [("X-Session-Id", "")]))
      example_blob (Some "abc") = Ok v /\
    headers_get (headers (example_response [("X-Session-Id", "")]))
      "X-Session-Id" = Some "" /\
    res_sessionId v = "abc" /\
    res_sessionId v <> "".
Proof.
  eexists. split; [reflexivity|]. split; [reflexivity|].
  split; [reflexivity|]. simpl. discriminate.
Defined.

Lemma session_id_round_trip_witness :
  sessionId (handleToggleListening example_atob example_parse example_state
               (example_env [("X-Session-Id", "s-42")])) = Some "s-42".
Proof.
  pose proof (proj2 (proj2 (session_id_round_trip example_atob example_parse))
                example_state (example_env [("X-Session-Id", "s-42")])
                example_blob (example_response [("X-Session-Id", "s-42")]))
    as H.
  simpl in H. eapply H; reflexivity.
Defined.

Lemma sources_need_base64_witness :
  exists v,
    sendVoiceMessage example_atob example_parse
      (fun _ => Ok (example_response
                      [("X-Encoding", "gzip"); ("X-Sources", example_base64)]))
      example_blob None = Ok v /\
    res_sources v = [].
Proof.
  apply (proj1 (sources_need_base64 example_atob example_parse)
           (fun _ => Ok (example_response
                           [("X-Encoding", "gzip");
                            ("X-Sources", example_base64)]))
           example_blob None
           (example_response
              [("X-Encoding", "gzip"); ("X-Sources", example_base64)])).
  - reflexivity.
  - reflexivity.
  - simpl. discriminate.
Defined.

(** C7, as stated, fails: the client holds the OpenStreetMap source and the
    response of the turn carries, base64 encoded, the two Wikivoyage
    sources, which share one URL; after the turn the OpenStreetMap source
    is gone and the list holds the same URL twice. *)
Lemma sources_not_append_only :
  In osm (sources example_state) /\
  sources (handleToggleListening example_atob example_parse example_state
             (example_env [("X-Encoding", "base64");
                           ("X-Sources", example_base64)]))
  = [wikivoyage; wikivoyage_see] /\
  ~ In osm [wikivoyage; wikivoyage_see] /\
  ~ NoDup (map url [wikivoyage; wikivoyage_see]).
Proof.
  split; [left; reflexivity|]. split; [vm_compute; reflexivity|]. split.
  - intros [H|[H|[]]]; discriminate H.
  - intros H. inversion H as [|x l Hin Hnd]; subst. apply Hin.
    left. reflexivity.
Defined.

Lemma sources_replaced_by_response_witness :
  sources (handleToggleListening example_atob example_parse example_state
             (example_env [("X-Encoding", "base64");
                           ("X-Sources", example_base64)]))
  = [wikivoyage; wikivoyage_see].
Proof.
  apply (proj1 (sources_replaced_by_response example_atob example_parse
                  example_state
                  (example_env [("X-Encoding", "base64");
                                ("X-Sources", example_base64)])
                  example_blob
                  {| audioBlob := example_blob;
                     res_sessionId := "abc";
                     transcribedText := "";
                     aiResponse := "";
                     res_sources := [wikivoyage; wikivoyage_see] |}
                  eq_refl eq_refl eq_refl eq_refl)).
  discriminate.
Defined.

End VoiceFrontendFacts.

(** ** The voice recorder *)

Module VoiceRecorderFacts.

Import Js VoiceRecorder.
Open Scope string_scope.
Open Scope list_scope.

Lemma nth_update_false :
  forall (l : list bool) (s : nat),
    nth s (update s (fun _ => false) l) false = false.
Proof.
  induction l as [|b l IH]; intros s; simpl.
  - destruct s; reflexivity.
  - destruct s; simpl; [reflexivity | apply IH].
Qed.

Lemma cleanup_idle :
  forall w0 w,
    stream w = stream w0 ->
    idle w0 (cleanup w).
Proof.
  intros w0 w Hs. unfold idle, isRecording, live. simpl.
  repeat split; try reflexivity.
  intros s Hw0. rewrite Hs, Hw0. apply nth_update_false.
Qed.

(** [cancelRecording] leaves the recorder idle in every world. *)
Lemma cancelRecording_idle : forall w, idle w (cancelRecording w).
Proof.
  intros w. unfold cancelRecording. apply cleanup_idle.
  destruct (mediaRecorder w); reflexivity.
Qed.

(** In every world, a step that resolves or rejects a promise of
    [stopRecording], and a call of [cancelRecording], leave the recorder
    idle, but for one case: the rejection by [stopRecording] itself, which
    changes nothing, leaves the stream that the object holds. *)
Lemma settlement_idle :
  forall w a,
    (a = callCancel \/
     exists o, In o (snd (step w a)) /\ settles o = true) ->
    (a = callStop -> stream w = None) ->
    idle w (fst (step w a)).
Proof.
  intros w a H Hstop.
  destruct a as [g sup d c b| | |r data|r|r].
  - destruct H as [H|[o [Hin Hs]]]; [discriminate|]. exfalso.
    simpl in Hin. unfold startRecording in Hin.
    destruct g, c, b; simpl in Hin; destruct Hin as [<-|[]]; discriminate.
  - destruct H as [H|[o [Hin Hs]]]; [discriminate|].
    simpl in *. unfold stopRecording in *.
    destruct (mediaRecorder w) as [r|] eqn:E; simpl in *.
    + contradiction.
    + unfold idle, isRecording. simpl. rewrite E, (Hstop eq_refl).
      repeat split; try reflexivity. intros s Hs'. discriminate.
  - simpl. unfold cancelRecording. apply cleanup_idle.
    destruct (mediaRecorder w); reflexivity.
  - destruct H as [H|[o [Hin Hs]]]; [discriminate|]. exfalso.
    simpl in Hin. destruct (nth_error (recorders w) r); exact Hin.
  - destruct H as [H|[o [Hin Hs]]]; [discriminate|].
    simpl in *. destruct (nth_error (recorders w) r) as [m|]; simpl in *;
      [|contradiction].
    destruct (onstop m); simpl in *; [|contradiction].
    apply cleanup_idle. reflexivity.
  - destruct H as [H|[o [Hin Hs]]]; [discriminate|].
    simpl in *. destruct (nth_error (recorders w) r) as [m|]; simpl in *;
      [|contradiction].
    destruct (onerror m); simpl in *; [|contradiction].
    apply cleanup_idle. reflexivity.
Qed.

(** C10, where the code breaks it.  On a browser that grants the
    microphone and has no [MediaRecorder], [startRecording] fails after it
    has stored the stream, and its [catch] releases nothing.  The call of
    [stopRecording] that follows rejects its promise with "No recording in
    progress" and leaves the object as it is: the recorder reference is
    null and [isRecording] is false, but the stream is still held and its
    tracks are live, so the recorder is not idle. *)
Theorem stop_rejection_keeps_stream :
  snd (step fresh example_unsupported) = [startFailed startError] /\
  snd (step example_failed_start callStop)
  = [reject 0 "No recording in progress"] /\
  isRecording (fst (step example_failed_start callStop)) = false /\
  mediaRecorder (fst (step example_failed_start callStop)) = None /\
  stream (fst (step example_failed_start callStop)) = Some 0 /\
  live (fst (step example_failed_start callStop)) 0 = true /\
  ~ idle example_failed_start (fst (step example_failed_start callStop)).
Proof.
  repeat (split; [reflexivity|]).
  intros (_ & _ & H & _). discriminate H.
Qed.

End VoiceRecorderFacts.

(** ** The message formatter *)

Module FormatMessageFacts.

Import FormatMessage.
Open Scope list_scope.

Lemma dropWhile_head :
  forall p s c r, dropWhile p s = c :: r -> p c = false.
Proof.
  intros p. induction s as [|x s IH]; intros c r H; simpl in H.
  - discriminate.
  - destruct (p x) eqn:E.
    + eapply IH. exact H.
    + injection H as <- _. exact E.
Qed.

Lemma dropWhile_suffix :
  forall p s, exists a, s = a ++ dropWhile p s.
Proof.
  intros p. induction s as [|x s [a IH]]; simpl.
  - exists []. reflexivity.
  - destruct (p x).
    + exists (x :: a). simpl. rewrite <- IH. reflexivity.
    + exists []. reflexivity.
Qed.

(** [trim s] is a part of [s]. *)
Lemma trim_infix : forall s, exists a b, s = a ++ trim s ++ b.
Proof.
  intros s. unfold trim.
  destruct (dropWhile_suffix isWhiteSpace s) as [a Ha].
  destruct (dropWhile_suffix isWhiteSpace (rev (dropWhile isWhiteSpace s)))
    as [b Hb].
  exists a, (rev b). rewrite <- rev_app_distr, <- Hb, rev_involutive.
  exact Ha.
Qed.

Lemma trim_first :
  forall s c r, trim s = c :: r -> isWhiteSpace c = false.
Proof.
  intros s c r H. unfold trim in H.
  destruct (dropWhile_suffix isWhiteSpace (rev (dropWhile isWhiteSpace s)))
    as [b Hb].
  apply (f_equal (@rev N)) in Hb. rewrite rev_involutive, rev_app_distr in Hb.
  rewrite H in Hb. simpl in Hb.
  eapply dropWhile_head. exact Hb.
Qed.

Lemma trim_last :
  forall s pre c, trim s = pre ++ [c] -> isWhiteSpace c = false.
Proof.
  intros s pre c H. unfold trim in H.
  apply (f_equal (@rev N)) in H.
  rewrite rev_involutive, rev_app_distr in H. simpl in H.
  eapply dropWhile_head. exact H.
Qed.

(** What [noBlankRun] decides. *)
Lemma noBlankRun_sound :
  forall pre s post,
    noBlankRun s = true -> s <> pre ++ [10; 10; 10] ++ post.
Proof.
  induction pre as [|x pre IH]; intros s post H E; subst s; simpl in H.
  - discriminate.
  - apply andb_true_iff in H. destruct H as [_ H].
    exact (IH _ post H eq_refl).
Qed.

Lemma leadingNewlines_dropWhile :
  forall s, leadingNewlines (dropWhile (N.eqb 10) s) = O.
Proof.
  induction s as [|c s IH]; cbn [dropWhile leadingNewlines].
  - reflexivity.
  - destruct (10 =? c) eqn:E; [exact IH|].
    cbn [leadingNewlines]. rewrite E. reflexivity.
Qed.

Lemma dropWhile_length :
  forall p s, (List.length (dropWhile p s) <= List.length s)%nat.
Proof.
  intros p. induction s as [|c s IH]; simpl.
  - lia.
  - destruct (p c); simpl; lia.
Qed.

(** The greedy repetition of a newline takes every newline at the
    position. *)
Lemma repeat_newline :
  forall fuel rest prev caps,
    (List.length rest <= fuel)%nat ->
    exists prev',
      repeatMatch (rmatch (Char (N.eqb 10))) true
        (fun p r c => rmatch Empty p r c matched) fuel prev rest caps
      = Some (prev', dropWhile (N.eqb 10) rest, caps).
Proof.
  set (m := rmatch (Char (N.eqb 10))).
  assert (Hm : forall prev c rest caps k,
             m prev (c :: rest) caps k
             = if 10 =? c then k (Some c) rest caps else None)
    by reflexivity.
  induction fuel as [|fuel IH]; intros rest prev caps Hlen.
  - destruct rest; [|simpl in Hlen; lia]. eexists. reflexivity.
  - destruct rest as [|c rest].
    + eexists. reflexivity.
    + cbn [repeatMatch dropWhile]. rewrite Hm.
      destruct (10 =? c) eqn:E.
      * replace (Nat.ltb (List.length rest) (List.length (c :: rest)))
          with true by (symmetry; apply Nat.ltb_lt; simpl; lia).
        destruct (IH rest (Some c) caps) as [prev' Hp];
          [simpl in Hlen; lia|].
        rewrite Hp. eexists. reflexivity.
      * eexists. reflexivity.
Qed.

(** Where the pattern of [blankLines] matches and what it consumes. *)
Lemma blankLines_match :
  forall prev s,
    (Nat.ltb (leadingNewlines s) 3 = true /\
     rmatch blankLines prev s [] matched = None) \/
    (Nat.ltb (leadingNewlines s) 3 = false /\
     exists prev',
       rmatch blankLines prev s [] matched
       = Some (prev', dropWhile (N.eqb 10) s, [])).
Proof.
  intros prev s. unfold blankLines, seq. cbn [fold_right rmatch].
  destruct s as [|c1 s]; [left; split; reflexivity|].
  cbn [leadingNewlines dropWhile].
  destruct (10 =? c1) eqn:E1; [|left; split; reflexivity].
  destruct s as [|c2 s]; [left; split; reflexivity|].
  cbn [leadingNewlines dropWhile].
  destruct (10 =? c2) eqn:E2; [|left; split; reflexivity].
  destruct s as [|c3 s]; [left; split; reflexivity|].
  cbn [leadingNewlines dropWhile].
  destruct (10 =? c3) eqn:E3; [|left; split; reflexivity].
  right. split; [reflexivity|].
  apply repeat_newline. lia.
Qed.

(** The result of collapsing: no run of three newlines, and no more
    leading newlines than the input had. *)
Lemma collapse_from :
  forall fuel s prev,
    (List.length s < fuel)%nat ->
    noBlankRun (replaceAllFrom fuel blankLines [10; 10] prev s) = true /\
    le (leadingNewlines (replaceAllFrom fuel blankLines [10; 10] prev s))
       (leadingNewlines s).
Proof.
  induction fuel as [|fuel IH]; intros s prev Hlen; [lia|].
  cbn [replaceAllFrom].
  destruct (blankLines_match prev s) as [[Hlt ->]|[Hge [prev' ->]]].
  - destruct s as [|c s]; [split; [reflexivity|lia]|].
    destruct (IH s (Some c)) as [Hno Hlead]; [simpl in Hlen; lia|].
    set (out := replaceAllFrom fuel blankLines [10; 10] (Some c) s) in *.
    assert (Hl : (leadingNewlines (c :: out) <= leadingNewlines (c :: s))%nat).
    { cbn [leadingNewlines]. destruct (10 =? c); lia. }
    split; [|exact Hl].
    cbn [noBlankRun]. rewrite Hno, andb_true_r.
    apply Nat.ltb_lt. apply Nat.ltb_lt in Hlt. lia.
  - apply Nat.ltb_ge in Hge.
    assert (Hshort :
      (List.length (dropWhile (N.eqb 10) s) < List.length s)%nat).
    { destruct s as [|c1 s]; [simpl in Hge; lia|].
      cbn [leadingNewlines] in Hge. cbn [dropWhile].
      destruct (10 =? c1); [|lia].
      pose proof (dropWhile_length (N.eqb 10) s). simpl. lia. }
    replace (Nat.ltb (List.length (dropWhile (N.eqb 10) s)) (List.length s))
      with true by (symmetry; apply Nat.ltb_lt; exact Hshort).
    destruct (IH (dropWhile (N.eqb 10) s) prev') as [Hno Hlead]; [lia|].
    rewrite leadingNewlines_dropWhile in Hlead.
    set (out := replaceAllFrom fuel blankLines [10; 10] prev'
                  (dropWhile (N.eqb 10) s)) in *.
    assert (H0 : leadingNewlines out = O) by lia.
    split.
    + cbn [app noBlankRun leadingNewlines N.eqb Pos.eqb]. rewrite H0, Hno.
      reflexivity.
    + cbn [app leadingNewlines N.eqb Pos.eqb]. rewrite H0. lia.
Qed.

Lemma collapse_noBlankRun :
  forall s, noBlankRun (replaceAll blankLines [10; 10] s) = true.
Proof.
  intros s. unfold replaceAll. apply collapse_from. lia.
Qed.

(** C8. For every input string, the string that [formatMessage] returns
    contains no three consecutive newline characters, does not start with
    white space and does not end with white space. *)
Theorem formatMessage_clean :
  forall text,
    (forall pre post, formatMessage text <> pre ++ [10; 10; 10] ++ post) /\
    (forall c rest, formatMessage text = c :: rest -> isWhiteSpace c = false)
    /\
    (forall pre c, formatMessage text = pre ++ [c] -> isWhiteSpace c = false).
Proof.
  intros text. unfold formatMessage. destruct text as [|c0 text].
  - repeat split.
    + intros pre post H. destruct pre; discriminate H.
    + intros c rest H. discriminate H.
    + intros pre c H. destruct pre; discriminate H.
  - set (lines := splitLines (c0 :: text)).
    set (joined := replaceAll dashLine []
                     (join [10] (fst (fold_left formatLine lines ([], None))))).
    repeat split.
    + intros pre post H.
      destruct (trim_infix (replaceAll blankLines [10; 10] joined))
        as (a & b & Hab).
      rewrite H in Hab.
      apply (noBlankRun_sound (a ++ pre) _ (post ++ b)
               (collapse_noBlankRun joined)).
      rewrite Hab. rewrite <- !app_assoc. reflexivity.
    + intros c rest H. eapply trim_first. exact H.
    + intros pre c H. eapply trim_last. exact H.
Qed.

(** A reply with blank lines at both ends, a dash marker and four newlines
    in a row. *)
Example formatMessage_blank_lines :
  formatMessage
    ([10; 10] ++ ofAscii "  - hello  " ++ [10; 10; 10; 10] ++ ofAscii "x"
     ++ [10])
  = ofAscii "hello" ++ [10] ++ ofAscii "x".
Proof.
  vm_compute. reflexivity.
Qed.

(** A day header, a period with two activities and a numbered line. *)
Example formatMessage_day_plan :
  formatMessage
    (ofAscii "Day 1: Arrival" ++ [10] ++
     ofAscii "Morning: Visit Amber Fort (9:00 AM - 11:00 AM), Explore City Palace"
     ++ [10] ++ ofAscii "1. Lunch")
  = ofAscii "**Day 1**" ++ [10] ++ ofAscii "Arrival" ++ [10] ++
    ofAscii "*Morning*" ++ [10] ++
    bullet ++ ofAscii "Visit Amber Fort (9:00 AM - 11:00 AM)" ++ [10] ++
    bullet ++ ofAscii "Explore City Palace" ++ [10] ++
    bullet ++ ofAscii "Lunch".
Proof.
  vm_compute. reflexivity.
Qed.

Lemma formatMessage_clean_witness :
  isWhiteSpace 104 = false.
Proof.
  apply (proj1 (proj2 (formatMessage_clean
                         ([10; 10] ++ ofAscii "  - hello  " ++
                          [10; 10; 10; 10] ++ ofAscii "x" ++ [10])))
           104 (ofAscii "ello" ++ [10] ++ ofAscii "x")).
  vm_compute. reflexivity.
Defined.

End FormatMessageFacts.

(** ** The base URL of the backend *)

Module ApiBaseFacts.

Import Js ApiBase.
Open Scope string_scope.

Lemma prefix_append :
  forall p s t, String.prefix p s = true -> String.prefix p (s ++ t) = true.
Proof.
  induction p as [|c p IH]; intros s t H.
  - destruct (s ++ t); reflexivity.
  - destruct s as [|d s]; simpl in *; [discriminate|].
    destruct (Ascii.ascii_dec c d); [|discriminate].
    apply IH. exact H.
Qed.

Lemma endsWith_append : forall a b, endsWith (a ++ b) b = true.
Proof.
  induction a as [|c a IH]; intros b.
  - cbn [append]. destruct b; [reflexivity|].
    cbn [endsWith]. rewrite String.eqb_refl. reflexivity.
  - cbn [append endsWith]. rewrite IH. apply orb_true_r.
Qed.

(** Whatever the environment variable holds, the base URL either is a local
    path that starts with /api, or starts with http and ends with /api; a
    missing or empty variable gives /api. *)
Theorem API_BASE_URL_shape :
  forall VITE_API_BASE_URL,
    ((startsWith (API_BASE_URL VITE_API_BASE_URL) "http" = false /\
      startsWith (API_BASE_URL VITE_API_BASE_URL) "/api" = true) \/
     (startsWith (API_BASE_URL VITE_API_BASE_URL) "http" = true /\
      endsWith (API_BASE_URL VITE_API_BASE_URL) "/api" = true)) /\
    (truthyOpt VITE_API_BASE_URL = false ->
     API_BASE_URL VITE_API_BASE_URL = "/api").
Proof.
  intros env. split.
  - unfold API_BASE_URL.
    set (url := dropTrailingSlash
                  (if truthyOpt env then orEmpty env else "/api")).
    destruct (startsWith url "http") eqn:Eh; simpl.
    + right. destruct (endsWith url "/api") eqn:Ee; simpl.
      * split; assumption.
      * split; [apply prefix_append; exact Eh | apply endsWith_append].
    + left. destruct (startsWith url "/api") eqn:Ea; simpl.
      * split; assumption.
      * split; reflexivity.
  - intros H. unfold API_BASE_URL. rewrite H. reflexivity.
Qed.

Lemma API_BASE_URL_shape_witness :
  API_BASE_URL (Some "") = "/api".
Proof.
  apply (proj2 (API_BASE_URL_shape (Some ""))). reflexivity.
Defined.

(** A deployment URL with a slash at its end gets the /api suffix in place
    of the slash. *)
Example API_BASE_URL_production :
  API_BASE_URL (Some "https://planner.example.com/")
  = "https://planner.example.com/api".
Proof.
  reflexivity.
Qed.

End ApiBaseFacts.

(** ** The feed of the voice client *)

Module ItineraryFeedFacts.

Import Js VoiceFrontend ItineraryFeed.
Open Scope string_scope.
Open Scope list_scope.

Lemma truthy_append_right :
  forall a b, truthy b = true -> truthy (a ++ b)%string = true.
Proof.
  intros [|c a] b H; [exact H | reflexivity].
Qed.

Lemma formatDuration_truthy : forall m, truthy (formatDuration m) = true.
Proof.
  intros m. unfold formatDuration, hr.
  destruct (60 <=? m)%Z.
  - cbv zeta.
    destruct (Z.rem m 60 =? 0)%Z; [|destruct (Z.rem m 60 =? 30)%Z];
      repeat (apply truthy_append_right);
      try destruct (m / 60 =? 1)%Z; reflexivity.
  - apply truthy_append_right. reflexivity.
Qed.

(** Every card of the feed shows [formatDuration] of the minutes of its
    activity, and for an hour or more that text does not tell the minutes
    past the whole hour unless they are exactly 30: it is the text of the
    whole hours alone. *)
Theorem feed_card_duration :
  (forall activity,
      card activity
      = Card (name activity) (formatDuration (duration_minutes activity))) /\
  (forall minutes,
      (60 <= minutes)%Z ->
      Z.rem minutes 60 <> 30%Z ->
      formatDuration minutes = formatDuration (60 * (minutes / 60))).
Proof.
  split.
  - intros activity. unfold card, displayDuration.
    cbn [truthyOpt orEmpty]. rewrite formatDuration_truthy. reflexivity.
  - intros m Hm H30. unfold formatDuration.
    assert (Hq : (1 <= m / 60)%Z)
      by (apply Z.div_le_lower_bound; lia).
    replace (60 <=? m)%Z with true by (symmetry; apply Z.leb_le; lia).
    replace (60 <=? 60 * (m / 60))%Z with true
      by (symmetry; apply Z.leb_le; lia).
    cbv zeta.
    replace (60 * (m / 60) / 60)%Z with (m / 60)%Z
      by (rewrite Z.mul_comm, Z.div_mul; lia).
    replace (Z.rem (60 * (m / 60)) 60) with 0%Z
      by (rewrite Z.mul_comm, Z.rem_mul; lia).
    simpl (0 =? 0)%Z. cbv iota.
    destruct (Z.rem m 60 =? 0)%Z; [reflexivity|].
    destruct (Z.eqb_spec (Z.rem m 60) 30); [contradiction|reflexivity].
Qed.

Lemma feed_card_duration_witness :
  formatDuration 119 = formatDuration (60 * (119 / 60)).
Proof.
  apply (proj2 feed_card_duration 119%Z); [lia | discriminate].
Defined.

(** What the two formats make of 95 minutes. *)
Example formatDuration_95 :
  formatDuration 95 = "1 hr" /\
  formatDurationFromMinutes 95 = "1 hr 35m" /\
  formatDuration 90 = "1.5 hrs" /\
  formatDuration 45 = "45 min".
Proof.
  repeat split; reflexivity.
Qed.

Lemma sectionCards_between :
  forall c l rest,
    isConnector c = true ->
    between true rest ->
    between true (sectionCards c l ++ rest).
Proof.
  intros c l rest Hc Hrest. induction l as [|a l IH]; simpl.
  - exact Hrest.
  - destruct l as [|b l]; [exact Hrest|].
    destruct c as [|lab|n d|t|]; try discriminate Hc.
    cbn [app between]. split; [reflexivity|]. split; [reflexivity|].
    exact IH.
Qed.

Lemma feedSection_cards :
  forall label c l toNext rest,
    nonEmpty l = true ->
    existsb isCard (feedSection label c l toNext ++ rest) = true.
Proof.
  intros label c [|a l] toNext rest H; [discriminate|]. reflexivity.
Qed.

Lemma feedSection_between :
  forall label c l toNext rest seen,
    isConnector c = true ->
    match toNext with
    | Some n => isConnector n = true /\ existsb isCard rest = true
    | None => True
    end ->
    between (seen || nonEmpty l) rest ->
    between seen (feedSection label c l toNext ++ rest).
Proof.
  intros label c l toNext rest seen Hc Hn Hrest.
  destruct l as [|a l].
  - simpl in *. rewrite orb_false_r in Hrest. exact Hrest.
  - rewrite orb_true_r in Hrest. unfold feedSection.
    rewrite <- app_assoc. cbn [app between].
    change (card a :: match l with
                      | [] => []
                      | _ :: _ => c :: sectionCards c l
                      end)
      with (sectionCards c (a :: l)).
    assert (H : between true (sectionCards c (a :: l) ++
                              match toNext with
                              | Some n => [n]
                              | None => []
                              end ++ rest)).
    { apply sectionCards_between; [exact Hc|].
      destruct toNext as [n|]; [|exact Hrest].
      destruct Hn as [Hn1 Hn2].
      destruct n as [|lab|nm d|t|]; try discriminate Hn1.
      cbn [app between]. repeat split; assumption. }
    exact H.
Qed.

Lemma between_at :
  forall pre l seen t post,
    between seen l ->
    l = pre ++ Connector t :: post ->
    (seen = true \/ existsb isCard pre = true) /\
    existsb isCard post = true.
Proof.
  induction pre as [|e pre IH]; intros l seen t post H E; subst l;
    simpl in *.
  - destruct H as (Hs & Hp & _). split; [left; exact Hs | exact Hp].
  - destruct e as [|lab|n d|t0|]; simpl in *.
    + destruct (IH _ _ _ _ H eq_refl) as [[A|A] B]; split; auto.
    + destruct (IH _ _ _ _ H eq_refl) as [[A|A] B]; split; auto.
    + destruct (IH _ _ _ _ H eq_refl) as [_ B]; split; auto.
    + destruct H as (_ & _ & H).
      destruct (IH _ _ _ _ H eq_refl) as [[A|A] B]; split; auto.
    + destruct (IH _ _ _ _ H eq_refl) as [[A|A] B]; split; auto.
Qed.

Lemma sectionCards_filter :
  forall c l,
    isConnector c = true ->
    filter isCard (sectionCards c l) = map card l.
Proof.
  intros c l Hc. induction l as [|a l IH]; simpl.
  - reflexivity.
  - f_equal. destruct l as [|b l]; [reflexivity|].
    destruct c as [|lab|n d|t|]; try discriminate Hc.
    exact IH.
Qed.

Lemma feedSection_filter :
  forall label c l toNext,
    isConnector c = true ->
    match toNext with
    | Some n => isConnector n = true
    | None => True
    end ->
    filter isCard (feedSection label c l toNext) = map card l.
Proof.
  intros label c l toNext Hc Hn. destruct l as [|a l]; [reflexivity|].
  unfold feedSection. rewrite filter_app. cbn [filter isCard app].
  change (card a :: match l with
                    | [] => []
                    | _ :: _ => c :: sectionCards c l
                    end)
    with (sectionCards c (a :: l)).
  assert (Hcard : forall x, isCard (card x) = true) by reflexivity.
  rewrite (sectionCards_filter c (a :: l) Hc).
  destruct toNext as [n|]; [|apply app_nil_r].
  destruct n as [|lab|nm d|t|]; try discriminate Hn. apply app_nil_r.
Qed.

(** In the feed of every day the cards are the activities of the morning,
    the afternoon and the evening in that order, and every travel connector
    stands after some card and before some card: none opens or closes the
    feed. *)
Theorem feed_cards_and_connectors :
  forall day,
    filter isCard (ItineraryFeed (Some day))
    = map card (morning day ++ afternoon day ++ evening day) /\
    (forall pre t post,
        ItineraryFeed (Some day) = pre ++ Connector t :: post ->
        existsb isCard pre = true /\ existsb isCard post = true).
Proof.
  intros day. split.
  - unfold ItineraryFeed. rewrite !filter_app, !map_app.
    rewrite !feedSection_filter;
      try reflexivity;
      try (destruct (nonEmpty (afternoon day)); exact I || reflexivity);
      try (destruct (nonEmpty (evening day)); exact I || reflexivity).
    destruct (nonEmpty (morning day) || nonEmpty (afternoon day)
              || nonEmpty (evening day)); simpl; rewrite ?app_nil_r;
      reflexivity.
  - intros pre t post E.
    assert (H : between false (ItineraryFeed (Some day))).
    { unfold ItineraryFeed.
      apply feedSection_between; [reflexivity| |].
      - destruct (nonEmpty (afternoon day)) eqn:Ea; [|exact I].
        split; [reflexivity|]. apply feedSection_cards. exact Ea.
      - apply feedSection_between; [reflexivity| |].
        + destruct (nonEmpty (evening day)) eqn:Ee; [|exact I].
          split; [reflexivity|]. apply feedSection_cards. exact Ee.
        + apply feedSection_between; [reflexivity|exact I|].
          destruct (nonEmpty (morning day) || nonEmpty (afternoon day)
                    || nonEmpty (evening day)); exact I. }
    destruct (between_at pre _ _ t post H E) as [[A|A] B].
    + discriminate A.
    + split; assumption.
Qed.

Lemma feed_cards_and_connectors_witness :
  existsb isCard (firstn 2 (ItineraryFeed (Some example_feed_day))) = true /\
  existsb isCard (skipn 3 (ItineraryFeed (Some example_feed_day))) = true.
Proof.
  apply (proj2 (feed_cards_and_connectors example_feed_day)
           (firstn 2 (ItineraryFeed (Some example_feed_day)))
           "10 min"
           (skipn 3 (ItineraryFeed (Some example_feed_day)))).
  reflexivity.
Defined.

End ItineraryFeedFacts.

(** ** The voice client: what every call of its handlers keeps *)

Module VoiceClientFacts.

Import Js VoiceFrontend VoiceEffects VoiceSamples.
Open Scope string_scope.
Open Scope list_scope.

Section Handlers.

Variable atob : string -> Result string.
Variable JSON_parse : string -> Result (list Source).

Lemma loadItinerary_fields :
  forall server captured st,
    transcript (loadItinerary server captured st) = transcript st /\
    sources (loadItinerary server captured st) = sources st /\
    sessionId (loadItinerary server captured st) = sessionId st /\
    isListening (loadItinerary server captured st) = isListening st /\
    isProcessing (loadItinerary server captured st) = isProcessing st /\
    (itinerary (loadItinerary server captured st) = itinerary st \/
     exists it, itinerary (loadItinerary server captured st) = Some it).
Proof.
  intros server captured st. unfold loadItinerary.
  destruct (truthyOpt captured); [|repeat split; left; reflexivity].
  destruct (getItinerary server (orEmpty captured)) as [d|m];
    [|repeat split; left; reflexivity].
  destruct (current_itinerary d) as [it|];
    [|repeat split; left; reflexivity].
  repeat split. right. exists it. reflexivity.
Qed.

(** The messages a completed turn adds. *)
Definition added (env : ToggleEnv) (v : VoiceResult)
  : list TranscriptMessage :=
  (if truthy (transcribedText v)
   then [{| type := user; text := transcribedText v;
            timestamp := Some (now env) |}] else []) ++
  (if truthy (aiResponse v)
   then [{| type := assistant; text := aiResponse v;
            timestamp := Some (now env) |}] else []).

Lemma afterResponse_fields :
  forall env captured v st,
    transcript (afterResponse env captured v st)
    = transcript st ++ added env v /\
    isListening (afterResponse env captured v st) = isListening st /\
    isProcessing (afterResponse env captured v st) = isProcessing st /\
    sessionId (afterResponse env captured v st)
    = (if truthy (res_sessionId v) then Some (res_sessionId v)
       else sessionId st) /\
    sources (afterResponse env captured v st)
    = (if nonEmpty (res_sources v) then res_sources v
       else if nonEmpty (loadSources (session_second env)
                           (sessionId captured))
       then loadSources (session_second env) (sessionId captured)
       else sources st) /\
    (itinerary (afterResponse env captured v st) = itinerary st \/
     exists it, itinerary (afterResponse env captured v st) = Some it).
Proof.
  intros env captured v st. unfold afterResponse, added.
  set (s1 := if truthy (res_sessionId v)
             then setSessionId (Some (res_sessionId v)) st else st).
  set (s2 := if nonEmpty (res_sources v)
             then setSources (res_sources v) s1 else s1).
  set (s3 := if truthy (transcribedText v) then pushTranscript _ s2 else s2).
  set (s4 := if truthy (aiResponse v) then pushTranscript _ s3 else s3).
  destruct (loadItinerary_fields (session_first env) (sessionId captured) s4)
    as (Ht & Hs & Hi & Hl & Hp & Hit).
  assert (E4 :
    transcript s4 = transcript st ++
      (if truthy (transcribedText v)
       then [{| type := user; text := transcribedText v;
                timestamp := Some (now env) |}] else []) ++
      (if truthy (aiResponse v)
       then [{| type := assistant; text := aiResponse v;
                timestamp := Some (now env) |}] else []) /\
    isListening s4 = isListening st /\
    isProcessing s4 = isProcessing st /\
    sessionId s4 = (if truthy (res_sessionId v)
                    then Some (res_sessionId v) else sessionId st) /\
    sources s4 = (if nonEmpty (res_sources v) then res_sources v
                  else sources st) /\
    itinerary s4 = itinerary st).
  { unfold s4, s3, s2, s1.
    destruct (truthy (res_sessionId v)), (nonEmpty (res_sources v)),
      (truthy (transcribedText v)), (truthy (aiResponse v)); simpl;
      rewrite <- ?app_assoc, ?app_nil_r; repeat split; reflexivity. }
  destruct E4 as (E4t & E4l & E4p & E4i & E4s & E4it).
  destruct (nonEmpty (res_sources v)) eqn:En.
  - rewrite Ht, Hl, Hp, Hi, Hs, E4t, E4l, E4p, E4i, E4s.
    repeat split. rewrite <- E4it. exact Hit.
  - destruct (nonEmpty (loadSources (session_second env)
                          (sessionId captured))) eqn:El; simpl;
      rewrite Ht, Hl, Hp, Hi, ?Hs, E4t, E4l, E4p, E4i, ?E4s;
      repeat split; rewrite <- E4it; exact Hit.
Qed.

Lemma nonEmpty_not_nil :
  forall (A : Type) (l : list A), nonEmpty l = true -> l <> [].
Proof.
  intros A [|x l] H; [discriminate | discriminate].
Qed.

Lemma truthy_not_empty : forall s, truthy s = true -> s <> "".
Proof.
  intros [|c s] H; [discriminate | discriminate].
Qed.

(** Every call of [handleToggleListening] keeps the transcript and adds at
    most two messages at its end, none of them with an empty text. *)
Theorem transcript_append_only :
  forall st env,
    exists extra,
      transcript (handleToggleListening atob JSON_parse st env)
      = transcript st ++ extra /\
      List.length extra <= 2 /\
      Forall (fun m => text m <> "") extra.
Proof.
  intros st env. unfold handleToggleListening.
  destruct (recorder env); simpl;
    [|exists []; rewrite app_nil_r; repeat split; auto].
  destruct (isListening st); simpl.
  - destruct (stopRecording env) as [[audioBlob|m]|]; simpl.
    + destruct (sendVoiceMessage atob JSON_parse (voice_chat env) audioBlob
                  (sessionId st)) as [v|m]; simpl.
      * destruct (afterResponse_fields env st v (setFlags false true st))
          as (Ht & _).
        exists (added env v). rewrite Ht. simpl. split; [reflexivity|].
        unfold added.
        destruct (truthy (transcribedText v)) eqn:E1,
          (truthy (aiResponse v)) eqn:E2; simpl; split; auto;
          repeat constructor; simpl; apply truthy_not_empty; assumption.
      * eexists. split; [reflexivity|]. split; [simpl; lia|].
        repeat constructor. discriminate.
    + eexists. split; [reflexivity|]. split; [simpl; lia|].
      repeat constructor. discriminate.
    + exists []. rewrite app_nil_r. repeat split; auto.
  - destruct (startRecording env) as [[u|m]|]; simpl;
      exists []; rewrite app_nil_r; repeat split; auto.
Qed.

(** Neither [handleToggleListening] nor the effect on the session id ever
    clears what the client holds: an itinerary stays an itinerary, a
    non-empty sources list stays non-empty, a session id stays a session
    id. *)
Theorem client_state_never_cleared :
  forall st env,
    ((itinerary st <> None ->
      itinerary (handleToggleListening atob JSON_parse st env) <> None) /\
     (sources st <> [] ->
      sources (handleToggleListening atob JSON_parse st env) <> []) /\
     (sessionId st <> None ->
      sessionId (handleToggleListening atob JSON_parse st env) <> None)) /\
    ((itinerary st <> None -> itinerary (sessionEffect env st) <> None) /\
     (sources st <> [] -> sources (sessionEffect env st) <> []) /\
     (sessionId st <> None -> sessionId (sessionEffect env st) <> None)).
Proof.
  intros st env. split.
  - unfold handleToggleListening.
    destruct (recorder env); simpl; [|repeat split; auto].
    destruct (isListening st); simpl.
    + destruct (stopRecording env) as [[audioBlob|m]|]; simpl;
        [|repeat split; auto|repeat split; auto].
      destruct (sendVoiceMessage atob JSON_parse (voice_chat env) audioBlob
                  (sessionId st)) as [v|m]; simpl; [|repeat split; auto].
      destruct (afterResponse_fields env st v (setFlags false true st))
        as (_ & _ & _ & Hi & Hs & Hit).
      repeat split.
      * intros H. destruct Hit as [-> | [it ->]]; [exact H|discriminate].
      * intros H. rewrite Hs.
        destruct (nonEmpty (res_sources v)) eqn:E1;
          [apply nonEmpty_not_nil; exact E1|].
        destruct (nonEmpty (loadSources (session_second env) (sessionId st)))
          eqn:E2; [apply nonEmpty_not_nil; exact E2 | exact H].
      * intros H. rewrite Hi.
        destruct (truthy (res_sessionId v)); [discriminate | exact H].
    + destruct (startRecording env) as [[u|m]|]; simpl; repeat split; auto.
  - unfold sessionEffect.
    destruct (truthyOpt (sessionId st)); [|repeat split; auto].
    destruct (loadItinerary_fields (session_first env) (sessionId st) st)
      as (_ & Hs & Hi & _ & _ & Hit).
    destruct (nonEmpty (sources st)) eqn:E0.
    + rewrite Hs, Hi. repeat split; auto.
      intros H. destruct Hit as [-> | [it ->]]; [exact H|discriminate].
    + destruct (nonEmpty (loadSources (session_second env) (sessionId st)))
        eqn:E1; simpl; rewrite ?Hs, Hi; repeat split; auto.
      * intros H. destruct Hit as [-> | [it ->]]; [exact H|discriminate].
      * intros _. apply nonEmpty_not_nil. exact E1.
      * intros H. destruct Hit as [-> | [it ->]]; [exact H|discriminate].
Qed.

(** A call of [handleToggleListening] while listening, in which the
    recorder settles the promise of [stopRecording], ends with the client
    neither listening nor processing, whether the turn completes or fails.
    When the recorder never settles that promise, the handler does not get
    past its [await]: the client has stopped listening and stays
    processing, and nothing else has changed.  A call while not listening
    changes nothing but the listening flag, which is set exactly when the
    recorder started; without a recorder nothing changes. *)
Theorem listening_flags :
  forall st env,
    (recorder env = false ->
     handleToggleListening atob JSON_parse st env = st) /\
    (recorder env = true ->
     isListening st = true ->
     forall stopped,
       stopRecording env = Settled stopped ->
       isListening (handleToggleListening atob JSON_parse st env) = false /\
       isProcessing (handleToggleListening atob JSON_parse st env) = false) /\
    (recorder env = true ->
     isListening st = true ->
     stopRecording env = Pending ->
     handleToggleListening atob JSON_parse st env = setFlags false true st) /\
    (recorder env = true ->
     isListening st = false ->
     handleToggleListening atob JSON_parse st env
     = match startRecording env with
       | Settled (Ok _) => setFlags true (isProcessing st) st
       | _ => st
       end).
Proof.
  intros st env. unfold handleToggleListening. split; [|split; [|split]].
  - intros ->. reflexivity.
  - intros -> -> stopped ->. simpl.
    destruct stopped as [audioBlob|m]; simpl; [|split; reflexivity].
    destruct (sendVoiceMessage atob JSON_parse (voice_chat env) audioBlob
                (sessionId st)) as [v|m]; simpl; [|split; reflexivity].
    destruct (afterResponse_fields env st v (setFlags false true st))
      as (_ & Hl & Hp & _). split; [exact Hl | reflexivity].
  - intros -> -> ->. reflexivity.
  - intros -> ->. simpl. destruct (startRecording env) as [[u|m]|];
      reflexivity.
Qed.

End Handlers.

Lemma listening_flags_witness :
  handleToggleListening example_atob example_parse example_state example_stuck
  = setFlags false true example_state.
Proof.
  apply (proj1 (proj2 (proj2 (listening_flags example_atob example_parse
                                example_state example_stuck))));
    reflexivity.
Defined.

End VoiceClientFacts.

(** ** [sendVoiceMessage]: the request it builds and the answers it reads *)

Module VoiceApiFacts.

Import Js VoiceFrontend VoiceSamples.
Open Scope string_scope.
Open Scope list_scope.

Lemma not_empty_truthy : forall s, s <> "" -> truthy s = true.
Proof.
  intros [|c s] H; [contradiction H; reflexivity | reflexivity].
Qed.

Lemma orEmpty_some : forall s, s <> "" -> orEmpty (Some s) = s.
Proof.
  intros [|c s] H; [contradiction H; reflexivity | reflexivity].
Qed.

(** The form that [sendVoiceMessage] posts: the recording under a file name
    whose extension is webm, wav or ogg; the three fixed fields; and a
    [session_id] field exactly when the caller supplied a non-empty id,
    carrying that id. *)
Theorem formData_fields :
  forall audioBlob sessionId,
    (exists ext,
        In ext ["webm"; "wav"; "ogg"] /\
        In ("audio", File audioBlob ("recording." ++ ext))
           (formData audioBlob sessionId)) /\
    In ("language", Field "en") (formData audioBlob sessionId) /\
    In ("voice", Field "default") (formData audioBlob sessionId) /\
    In ("speed", Field "1.0") (formData audioBlob sessionId) /\
    (forall s,
        In ("session_id", Field s) (formData audioBlob sessionId) <->
        sessionId = Some s /\ s <> "") /\
    List.length (formData audioBlob sessionId)
    = (if truthyOpt sessionId then 5 else 4).
Proof.
  intros audioBlob sessionId. unfold formData.
  split; [|split; [|split; [|split; [|split]]]].
  - exists (extension audioBlob). split; [|left; reflexivity].
    unfold extension.
    destruct (includes (blob_type audioBlob) "webm"); [simpl; auto|].
    destruct (includes (blob_type audioBlob) "wav"); [simpl; auto|].
    destruct (includes (blob_type audioBlob) "ogg"); simpl; auto.
  - apply in_or_app. right. apply in_or_app. right. simpl. auto.
  - apply in_or_app. right. apply in_or_app. right. simpl. auto.
  - apply in_or_app. right. apply in_or_app. right. simpl. auto.
  - intros s. split.
    + intros H. apply in_app_or in H. destruct H as [H|H].
      { destruct H as [H|[]]. discriminate H. }
      apply in_app_or in H. destruct H as [H|H].
      * destruct sessionId as [s'|]; [|destruct H].
        destruct (truthy s') eqn:E; [|destruct H].
        destruct H as [H|[]]. injection H as ->. split; [reflexivity|].
        intros ->. discriminate E.
      * simpl in H. destruct H as [H|[H|[H|[]]]]; discriminate H.
    + intros [-> Hs]. apply in_or_app. right. apply in_or_app. left.
      rewrite (not_empty_truthy s Hs). left. reflexivity.
  - destruct sessionId as [s|]; [destruct s|]; reflexivity.
Qed.

Section Answers.

Variable atob : string -> Result string.
Variable JSON_parse : string -> Result (list Source).



(** What [sendVoiceMessage] returns for an [ok] answer marked base64 whose
    two text headers are present and not empty: when the transcribed text
    does not decode, both texts as the headers carry them; when only the
    reply does not decode, the transcribed text decoded and the reply as
    the header carries it; in both cases no sources.  When both decode, the
    decoded texts, with the sources decoded and parsed from [X-Sources],
    and no sources when that header is missing or does not decode or
    parse. *)
Theorem base64_outcomes :
  forall server audioBlob sessionId response rt ra,
    server (formData audioBlob sessionId) = Ok response ->
    ok response = true ->
    headers_get (headers response) "X-Encoding" = Some "base64" ->
    headers_get (headers response) "X-Transcribed-Text" = Some rt ->
    headers_get (headers response) "X-AI-Response" = Some ra ->
    rt <> "" ->
    ra <> "" ->
    exists v,
      sendVoiceMessage atob JSON_parse server audioBlob sessionId = Ok v /\
      (forall m, atob rt = Throw m ->
                 transcribedText v = rt /\ aiResponse v = ra /\
                 res_sources v = []) /\
      (forall t m, atob rt = Ok t -> atob ra = Throw m ->
                   transcribedText v = t /\ aiResponse v = ra /\
                   res_sources v = []) /\
      (forall t a, atob rt = Ok t -> atob ra = Ok a ->
                   transcribedText v = t /\ aiResponse v = a /\
                   (headers_get (headers response) "X-Sources" = None ->
                    res_sources v = []) /\
                   (forall es m,
                       headers_get (headers response) "X-Sources" = Some es ->
                       bind (atob es) JSON_parse = Throw m ->
                       res_sources v = []) /\
                   (forall es l,
                       headers_get (headers response) "X-Sources" = Some es ->
                       es <> "" ->
                       bind (atob es) JSON_parse = Ok l ->
                       res_sources v = l)).
Proof.
  intros server audioBlob sessionId response rt ra H Hok He Ht Ha Hrt Hra.
  unfold sendVoiceMessage. rewrite H. simpl. rewrite Hok. simpl.
  unfold decodeHeaders. rewrite He, Ht, Ha.
  rewrite (orEmpty_some rt Hrt), (orEmpty_some ra Hra).
  rewrite (not_empty_truthy rt Hrt), (not_empty_truthy ra Hra).
  change (String.eqb "base64" "base64") with true. cbv iota.
  destruct (atob rt) as [t|m] eqn:E1.
  - destruct (atob ra) as [a|m] eqn:E2.
    + eexists. split; [reflexivity|]. simpl.
      split; [intros m' Hm; discriminate Hm|].
      split; [intros t' m' _ Hm; discriminate Hm|].
      intros t' a' Ht' Ha'. injection Ht' as <-. injection Ha' as <-.
      split; [reflexivity|]. split; [reflexivity|].
      split; [|split].
      * intros ->. reflexivity.
      * intros es m -> Hb. destruct es as [|c es]; [reflexivity|].
        simpl. simpl in Hb. rewrite Hb. reflexivity.
      * intros es l -> Hne Hb. simpl.
        rewrite (not_empty_truthy es Hne).
        destruct es as [|c es]; [contradiction Hne; reflexivity|].
        simpl. simpl in Hb. rewrite Hb. reflexivity.
    + eexists. split; [reflexivity|]. simpl.
      split; [intros m' Hm; discriminate Hm|].
      split; [|intros t' a' _ Ha'; discriminate Ha'].
      intros t' m' Ht' _. injection Ht' as <-. repeat split.
  - eexists. split; [reflexivity|]. simpl.
    split; [intros m' _; repeat split|].
    split; [intros t' m' Ht'; discriminate Ht'|].
    intros t' a' Ht'; discriminate Ht'.
Qed.

End Answers.


Lemma base64_outcomes_witness :
  exists v,
    sendVoiceMessage example_atob example_parse
      (fun _ => Ok (example_response example_headers)) example_blob
      (Some "abc") = Ok v /\
    transcribedText v = example_json /\
    aiResponse v = example_json /\
    res_sources v = [wikivoyage; wikivoyage_see].
Proof.
  destruct (base64_outcomes example_atob example_parse
              (fun _ => Ok (example_response example_headers)) example_blob
              (Some "abc") (example_response example_headers)
              example_base64 example_base64
              eq_refl eq_refl eq_refl eq_refl eq_refl)
    as (v & Hv & _ & _ & H).
  - discriminate.
  - discriminate.
  - exists v. split; [exact Hv|].
    destruct (H example_json example_json eq_refl eq_refl)
      as (H1 & H2 & _ & _ & H3).
    split; [exact H1|]. split; [exact H2|].
    apply (H3 example_base64); [reflexivity | discriminate | reflexivity].
Defined.

(** [getAvailableDays] never offers an empty choice.  When the itinerary
    holds at least one of [day_1], [day_2] and [day_3], it offers exactly
    those of the days 1, 2 and 3 that the itinerary holds; when it holds
    none of the three (or there is no itinerary) it offers the days 1, 2
    and 3, for which the lookup of [getDayItinerary] then finds nothing.  A
    day beyond the third is not offered even when the itinerary holds
    it. *)
Theorem getAvailableDays_exact :
  (forall i, getAvailableDays i <> []) /\
  getAvailableDays None = [1; 2; 3] /\
  (forall it,
      day_1 it <> None \/ day_2 it <> None \/ day_3 it <> None ->
      forall d,
        In d (getAvailableDays (Some it)) <->
        In d [1; 2; 3] /\ dayOf it d <> None) /\
  (forall it,
      day_1 it = None -> day_2 it = None -> day_3 it = None ->
      getAvailableDays (Some it) = [1; 2; 3] /\
      forall d, In d [1; 2; 3] -> dayOf it d = None) /\
  (forall it d, 3 < d -> ~ In d (getAvailableDays (Some it))).
Proof.
  assert (K : forall it,
             dayOf it 1 = day_1 it /\ dayOf it 2 = day_2 it /\
             dayOf it 3 = day_3 it) by (intros it; repeat split).
  split; [|split; [reflexivity|split; [|split]]].
  - intros [it|]; [|discriminate].
    unfold getAvailableDays.
    destruct (day_1 it), (day_2 it), (day_3 it); discriminate.
  - intros it Hc d. destruct (K it) as (E1 & E2 & E3).
    unfold getAvailableDays.
    destruct (day_1 it) as [d1|] eqn:D1, (day_2 it) as [d2|] eqn:D2,
      (day_3 it) as [d3|] eqn:D3; simpl;
      try (exfalso; destruct Hc as [Hc|[Hc|Hc]]; apply Hc; reflexivity);
      (split;
       [ intros H;
         repeat (destruct H as [<-|H];
                 [split; [simpl; auto|rewrite ?E1, ?E2, ?E3; discriminate]|]);
         destruct H
       | intros [H Hd];
         repeat (destruct H as [<-|H];
                 [rewrite ?E1, ?E2, ?E3 in Hd;
                  try (contradiction Hd; reflexivity); auto|]);
         destruct H ]).
  - intros it D1 D2 D3. destruct (K it) as (E1 & E2 & E3).
    unfold getAvailableDays. rewrite D1, D2, D3. split; [reflexivity|].
    intros d [<-|[<-|[<-|[]]]]; congruence.
  - intros it d Hd Hin. unfold getAvailableDays in Hin.
    destruct (day_1 it), (day_2 it), (day_3 it); simpl in Hin;
      repeat (destruct Hin as [<-|Hin]; [lia|]); destruct Hin.
Qed.

Lemma getAvailableDays_exact_witness :
  In 2 (getAvailableDays (Some example_second_day)) <->
  In 2 [1; 2; 3] /\ dayOf example_second_day 2 <> None.
Proof.
  apply (proj1 (proj2 (proj2 getAvailableDays_exact)) example_second_day).
  right. left. discriminate.
Defined.

End VoiceApiFacts.

(** ** The timeline of [ItineraryDisplay]: what it shows, and all of it *)

Module TimelineFacts.

Import TextFrontend Timeline.
Open Scope list_scope.

Lemma cardsOf_app :
  forall l1 l2, cardsOf (l1 ++ l2) = cardsOf l1 ++ cardsOf l2.
Proof.
  induction l1 as [|[s|t|a|] l1 IH]; intros l2; simpl; rewrite ?IH;
    reflexivity.
Qed.

Lemma travelTimesOf_app :
  forall l1 l2,
    travelTimesOf (l1 ++ l2) = travelTimesOf l1 ++ travelTimesOf l2.
Proof.
  induction l1 as [|[s|t|a|] l1 IH]; intros l2; simpl; rewrite ?IH;
    reflexivity.
Qed.

Lemma headingsOf_app :
  forall l1 l2, headingsOf (l1 ++ l2) = headingsOf l1 ++ headingsOf l2.
Proof.
  induction l1 as [|[s|t|a|] l1 IH]; intros l2; simpl; rewrite ?IH;
    reflexivity.
Qed.

Lemma renderActivityCard_parts :
  forall d a i s,
    cardsOf (renderActivityCard d a i s) = [a] /\
    headingsOf (renderActivityCard d a i s) = [] /\
    ~ In NoActivities (renderActivityCard d a i s) /\
    travelTimesOf (renderActivityCard d a i s)
    = (if showTravelTime d i s then positiveTravel a else []).
Proof.
  intros d a i s. unfold renderActivityCard, positiveTravel.
  destruct (travel_from_previous a) as [t|];
    destruct (showTravelTime d i s); simpl;
    try destruct (0 <? t)%Z; simpl; repeat split;
    try reflexivity; intros H;
    repeat (destruct H as [H|H]; [discriminate H|]); destruct H.
Qed.

Lemma showTravelTime_later :
  forall d i s, showTravelTime d (S i) s = true.
Proof.
  intros d i s. reflexivity.
Qed.

Lemma renderCards_parts :
  forall d s l i,
    cardsOf (renderCards d s i l) = l /\
    headingsOf (renderCards d s i l) = [] /\
    ~ In NoActivities (renderCards d s i l) /\
    travelTimesOf (renderCards d s i l)
    = match l with
      | [] => []
      | a :: l' =>
          (if showTravelTime d i s then positiveTravel a else []) ++
          flat_map positiveTravel l'
      end.
Proof.
  intros d s l. induction l as [|a l IH]; intros i.
  - simpl. repeat split; try reflexivity. intros [].
  - cbn [renderCards].
    destruct (renderActivityCard_parts d a i s) as (Hc & Hh & Hn & Ht).
    destruct (IH (S i)) as (IHc & IHh & IHn & IHt).
    rewrite cardsOf_app, headingsOf_app, travelTimesOf_app.
    rewrite Hc, Hh, Ht, IHc, IHh, IHt. repeat split.
    + intros H. apply in_app_or in H. destruct H as [H|H];
        [exact (Hn H) | exact (IHn H)].
    + f_equal. destruct l as [|b l]; [reflexivity|].
      rewrite showTravelTime_later. reflexivity.
Qed.

Lemma renderTimeSlot_parts :
  forall d s l,
    cardsOf (renderTimeSlot d s l) = l /\
    headingsOf (renderTimeSlot d s l) = (if nonEmpty l then [s] else []) /\
    ~ In NoActivities (renderTimeSlot d s l) /\
    travelTimesOf (renderTimeSlot d s l)
    = match l with
      | [] => []
      | a :: l' =>
          (if showTravelTime d 0 s then positiveTravel a else []) ++
          flat_map positiveTravel l'
      end.
Proof.
  intros d s [|a l].
  - simpl. repeat split; try reflexivity. intros [].
  - destruct (renderCards_parts d s (a :: l) 0) as (Hc & Hh & Hn & Ht).
    unfold renderTimeSlot. cbn [cardsOf headingsOf travelTimesOf nonEmpty].
    rewrite Hc, Hh, Ht. repeat split.
    intros [H|H]; [discriminate H | exact (Hn H)].
Qed.

(** The timeline of a day shows every activity of the day exactly once and
    in order (morning, afternoon, evening); a heading for each slot that has
    activities and for no other; the travel time of every activity but the
    first of the day whose [travel_from_previous] is positive, and no other;
    and the line for an empty day exactly when the day has no activity. *)
Theorem timeline_complete :
  forall d,
    cardsOf (renderDay d) = dayActivities d /\
    headingsOf (renderDay d)
    = (if nonEmpty (morning d) then [slot_morning] else []) ++
      (if nonEmpty (afternoon d) then [slot_afternoon] else []) ++
      (if nonEmpty (evening d) then [slot_evening] else []) /\
    travelTimesOf (renderDay d)
    = flat_map positiveTravel (tl (dayActivities d)) /\
    (In NoActivities (renderDay d) <-> dayActivities d = []).
Proof.
  intros d. unfold renderDay, dayActivities.
  destruct (renderTimeSlot_parts d slot_morning (morning d))
    as (Mc & Mh & Mn & Mt).
  destruct (renderTimeSlot_parts d slot_afternoon (afternoon d))
    as (Ac & Ah & An & At).
  destruct (renderTimeSlot_parts d slot_evening (evening d))
    as (Ec & Eh & En & Et).
  set (rest := if nonEmpty (morning d) || nonEmpty (afternoon d)
                  || nonEmpty (evening d)
               then [] else [NoActivities]).
  assert (R : cardsOf rest = [] /\ headingsOf rest = [] /\
              travelTimesOf rest = []).
  { unfold rest.
    destruct (nonEmpty (morning d) || nonEmpty (afternoon d)
              || nonEmpty (evening d))%bool; repeat split. }
  destruct R as (Rc & Rh & Rt).
  rewrite !cardsOf_app, !headingsOf_app, !travelTimesOf_app.
  rewrite Mc, Ac, Ec, Rc, Mh, Ah, Eh, Rh, Mt, At, Et, Rt, !app_nil_r.
  split; [reflexivity|]. split; [reflexivity|]. split.
  - unfold showTravelTime.
    destruct (morning d) as [|m ml], (afternoon d) as [|a al],
      (evening d) as [|e el]; simpl;
      repeat (rewrite ?flat_map_app, ?app_nil_r, <- ?app_assoc; simpl);
      reflexivity.
  - split.
    + intros H.
      apply in_app_or in H. destruct H as [H|H]; [destruct (Mn H)|].
      apply in_app_or in H. destruct H as [H|H]; [destruct (An H)|].
      apply in_app_or in H. destruct H as [H|H]; [destruct (En H)|].
      unfold rest in H.
      destruct (morning d), (afternoon d), (evening d); simpl in H;
        try destruct H; reflexivity.
    + intros H. apply app_eq_nil in H. destruct H as [Hm H].
      apply app_eq_nil in H. destruct H as [Ha He].
      apply in_or_app. right. apply in_or_app. right.
      apply in_or_app. right. unfold rest. rewrite Hm, Ha, He.
      left. reflexivity.
Qed.

End TimelineFacts.

(** ** The text client: what every call of [sendMessage] does *)

Module TextClientFacts.

Import Js TextFrontend.
Open Scope string_scope.
Open Scope list_scope.

(** Every call of [sendMessage] appends exactly two messages, the user's
    with the content sent and then one of the assistant, leaves the client
    not loading and does not touch the mock data switch. *)
Theorem sendMessage_appends_two :
  forall st content env,
    exists reply,
      messages (sendMessage st content env)
      = messages st ++
        [{| role := user; content := content;
            timestamp := Some (now_user env) |}; reply] /\
      role reply = assistant /\
      timestamp reply = Some (now_reply env) /\
      isLoading (sendMessage st content env) = false /\
      useMockData (sendMessage st content env) = useMockData st.
Proof.
  intros st content env. unfold sendMessage.
  destruct (useMockData st) eqn:Em.
  - eexists. simpl. rewrite <- app_assoc. simpl.
    repeat split; try reflexivity; congruence.
  - destruct (chat env content (sessionId st)) as [m|s|data].
    + eexists. simpl. rewrite <- app_assoc. simpl.
      repeat split; try reflexivity; congruence.
    + eexists. simpl. rewrite <- app_assoc. simpl.
      repeat split; try reflexivity; congruence.
    + unfold applyResponse.
      destruct (String.eqb (api_status data) "success").
      * eexists. simpl. rewrite <- app_assoc. simpl.
        repeat split; try reflexivity; congruence.
      * eexists. simpl. rewrite <- app_assoc. simpl.
        repeat split; try reflexivity; congruence.
Qed.

(** No call of [sendMessage] clears the stored itinerary or the session
    id.  The sources are different: a completed turn whose answer carries
    a sources list stores that list, the empty one too, and only an answer
    without the field keeps the stored sources. *)
Theorem sendMessage_keeps_session :
  forall st content env,
    (itinerary st <> None ->
     itinerary (sendMessage st content env) <> None) /\
    (sessionId st <> None ->
     sessionId (sendMessage st content env) <> None) /\
    (forall data,
        useMockData st = false ->
        chat env content (sessionId st) = JsonBody data ->
        api_status data = "success" ->
        sources (sendMessage st content env)
        = match api_sources data with
          | Some l => l
          | None => sources st
          end /\
        sessionId (sendMessage st content env)
        = (if truthyOpt (api_session_id data) then api_session_id data
           else sessionId st)).
Proof.
  intros st content env. unfold sendMessage. split; [|split].
  - intros H. destruct (useMockData st); [simpl; discriminate|].
    destruct (chat env content (sessionId st)) as [m|s|data]; simpl;
      try exact H.
    unfold applyResponse.
    destruct (String.eqb (api_status data) "success"); simpl; [|exact H].
    destruct (api_itinerary data); [discriminate | exact H].
  - intros H. destruct (useMockData st); [simpl; exact H|].
    destruct (chat env content (sessionId st)) as [m|s|data]; simpl;
      try exact H.
    unfold applyResponse.
    destruct (String.eqb (api_status data) "success"); simpl; [|exact H].
    destruct (api_session_id data) as [[|c s]|]; simpl;
      [exact H | discriminate | exact H].
  - intros data -> -> Hs. unfold applyResponse. rewrite Hs. simpl.
    split; reflexivity.
Qed.

Lemma sendMessage_keeps_session_witness :
  sources (sendMessage example_state "Plan a trip" example_env)
  = match api_sources example_data with
    | Some l => l
    | None => sources example_state
    end /\
  sessionId (sendMessage example_state "Plan a trip" example_env)
  = (if truthyOpt (api_session_id example_data) then api_session_id example_data
     else sessionId example_state).
Proof.
  apply (proj2 (proj2 (sendMessage_keeps_session example_state "Plan a trip"
                         example_env)) example_data); reflexivity.
Defined.

End TextClientFacts.

(** ** The recorder: a whole recording, and the references it holds *)

Module RecordingFacts.

Import Js VoiceRecorder Recording.
Open Scope string_scope.
Open Scope list_scope.


Lemma update_last :
  forall (A : Type) (f : A -> A) (l : list A) (x : A),
    update (List.length l) f (l ++ [x]) = l ++ [f x].
Proof.
  induction l as [|y l IH]; intros x; simpl.
  - reflexivity.
  - rewrite IH. reflexivity.
Qed.

Lemma nth_error_last :
  forall (A : Type) (l : list A) (x : A),
    nth_error (l ++ [x]) (List.length l) = Some x.
Proof.
  induction l as [|y l IH]; intros x; simpl; [reflexivity | apply IH].
Qed.

Lemma nth_update_other :
  forall (l : list bool) (s s' : nat),
    s <> s' ->
    nth s (update s' (fun _ => false) l) false = nth s l false.
Proof.
  induction l as [|b l IH]; intros s s' H; simpl.
  - reflexivity.
  - destruct s' as [|s']; destruct s as [|s]; simpl; try reflexivity.
    + contradiction H. reflexivity.
    + apply IH. intros E. apply H. rewrite E. reflexivity.
Qed.

Lemma bytes_of_kept :
  forall chunks : list Blob,
    flat_map VoiceFrontend.blob_bytes
      (filter (fun data =>
                 Nat.ltb 0 (List.length (VoiceFrontend.blob_bytes data)))
              chunks)
    = flat_map VoiceFrontend.blob_bytes chunks.
Proof.
  induction chunks as [|c chunks IH]; simpl; [reflexivity|].
  destruct (VoiceFrontend.blob_bytes c) as [|b bs] eqn:E; simpl.
  - exact IH.
  - rewrite E, IH. reflexivity.
Qed.

Lemma run_app :
  forall l1 l2 w, run w (l1 ++ l2) = run (run w l1) l2.
Proof.
  induction l1 as [|a l1 IH]; intros l2 w; simpl; [reflexivity | apply IH].
Qed.

(** Data events on an existing recorder append the non-empty chunks and
    change nothing else. *)
Lemma run_data :
  forall chunks w r,
    nth_error (recorders w) r <> None ->
    run w (map (dataavailable r) chunks)
    = {| mediaRecorder := mediaRecorder w;
         audioChunks :=
           audioChunks w ++
           filter (fun data =>
                     Nat.ltb 0 (List.length (VoiceFrontend.blob_bytes data)))
                  chunks;
         stream := stream w;
         recorders := recorders w;
         streams := streams w;
         promises := promises w |}.
Proof.
  induction chunks as [|c chunks IH]; intros w r H.
  - simpl. rewrite app_nil_r. destruct w; reflexivity.
  - cbn [map run step].
    destruct (nth_error (recorders w) r) as [m|] eqn:E;
      [|contradiction H; reflexivity].
    cbn [fst]. unfold ondataavailable.
    destruct (Nat.ltb 0 (List.length (VoiceFrontend.blob_bytes c))) eqn:L.
    + rewrite (IH _ r); [|simpl; rewrite E; discriminate].
      cbn [filter]. rewrite L. simpl. rewrite <- app_assoc. reflexivity.
    + rewrite (IH _ r); [|rewrite E; discriminate].
      cbn [filter]. rewrite L. reflexivity.
Qed.

(** A recording from start to finish.  After [startRecording] was granted
    the microphone in any world [w], the data events of the new recorder
    before and after the call of [stopRecording], and then the [stop] event
    of the browser, resolve the promise of that call with a blob whose
    bytes are the bytes of all chunks in the order of their arrival and
    whose type is the one chosen at the start (audio/webm if the browser
    reports an empty type); the recorder is then idle and the tracks of the
    stream are stopped. *)
Theorem recording_round_trip :
  forall w isTypeSupported browserDefault before after,
    let r := List.length (recorders w) in
    let w1 :=
      fst (startRecording true isTypeSupported browserDefault true true w) in
    let w2 := run w1 (session r before after) in
    let chosen := chooseType isTypeSupported browserDefault in
    exists audioBlob,
      snd (step w2 (stopEvent r)) = [resolve (promises w) audioBlob] /\
      VoiceFrontend.blob_bytes audioBlob
      = flat_map VoiceFrontend.blob_bytes (before ++ after) /\
      VoiceFrontend.blob_type audioBlob
      = (if truthy chosen then chosen else "audio/webm") /\
      idle w1 (fst (step w2 (stopEvent r))).
Proof.
  intros w sup d before after. cbv zeta.
  set (chosen := chooseType sup d).
  set (w1 := fst (startRecording true sup d true true w)).
  set (m0 := {| recorded := List.length (streams w); mimeType := chosen;
                state := recording; onstop := None; onerror := None |}).
  assert (N1 : nth_error (recorders w1) (List.length (recorders w)) <> None).
  { change (recorders w1) with (recorders w ++ [m0]).
    rewrite nth_error_last. discriminate. }
  set (kept := fun l : list Blob =>
                 filter (fun data =>
                   Nat.ltb 0 (List.length (VoiceFrontend.blob_bytes data)))
                   l).
  set (m1 := stop (installHandlers (promises w) m0)).
  assert (E2 :
    run w1 (session (List.length (recorders w)) before after)
    = {| mediaRecorder := Some (List.length (recorders w));
         audioChunks := kept before ++ kept after;
         stream := Some (List.length (streams w));
         recorders := recorders w ++ [m1];
         streams := streams w ++ [true];
         promises := S (promises w) |}).
  { unfold session. rewrite !run_app.
    rewrite (run_data before w1 _ N1).
    cbn [run step fst]. unfold stopRecording.
    cbn [mediaRecorder w1 startRecording fst promises recorders
         audioChunks stream streams newPromise setRecorders].
    rewrite update_last.
    rewrite run_data;
      [|unfold setRecorders; cbn [recorders];
        rewrite nth_error_last; discriminate].
    reflexivity. }
  rewrite E2.
  assert (E3 :
    step {| mediaRecorder := Some (List.length (recorders w));
            audioChunks := kept before ++ kept after;
            stream := Some (List.length (streams w));
            recorders := recorders w ++ [m1];
            streams := streams w ++ [true];
            promises := S (promises w) |}
         (stopEvent (List.length (recorders w)))
    = ({| mediaRecorder := None;
          audioChunks := kept before ++ kept after;
          stream := None;
          recorders := recorders w ++ [stop m1];
          streams := update (List.length (streams w)) (fun _ => false)
                       (streams w ++ [true]);
          promises := S (promises w) |},
       [resolve (promises w)
          (newBlob (kept before ++ kept after)
             (if truthy chosen then chosen else "audio/webm"))])).
  { cbn [step recorders]. rewrite nth_error_last.
    cbn [onstop m1 stop installHandlers]. rewrite update_last.
    unfold onstopHandler.
    cbn [mediaRecorder recorders setRecorders audioChunks].
    rewrite nth_error_last. reflexivity. }
  rewrite E3. cbn [fst snd].
  eexists. split; [reflexivity|]. split; [|split; [reflexivity|]].
  - cbn [newBlob VoiceFrontend.blob_bytes]. rewrite flat_map_app.
    unfold kept. rewrite !bytes_of_kept, <- flat_map_app. reflexivity.
  - unfold idle, isRecording, live. cbn [mediaRecorder stream streams].
    split; [reflexivity|]. split; [reflexivity|]. split; [reflexivity|].
    intros s Hs. unfold w1 in Hs. cbn in Hs. injection Hs as <-.
    rewrite update_last. apply nth_middle.
Qed.





(** The recorder stops only the tracks of the stream it holds: a stream of
    the browser that the object does not hold is as live after any step as
    before it.  So the stream of a recording that was replaced by a second
    call of [startRecording] is never stopped by the object. *)
Theorem only_held_stream_stopped :
  forall w a s,
    s < List.length (streams w) ->
    stream w <> Some s ->
    live (fst (step w a)) s = live w s.
Proof.
  intros w a s Hlt Hs. unfold live.
  assert (C : forall w', stream w' = stream w -> streams w' = streams w ->
                         nth s (streams (cleanup w')) false
                         = nth s (streams w) false).
  { intros w' E1 E2. unfold cleanup. cbn [streams]. rewrite E1, E2.
    destruct (stream w) as [s'|]; [|reflexivity].
    apply nth_update_other. intros E. apply Hs. rewrite E. reflexivity. }
  destruct a as [g sup d c b| | |r data|r|r]; cbn [step].
  - unfold startRecording. destruct g; [|reflexivity].
    destruct c; cbn [fst streams]; apply app_nth1; exact Hlt.
  - unfold stopRecording. destruct (mediaRecorder w); reflexivity.
  - cbn [fst]. unfold cancelRecording. apply C;
      destruct (mediaRecorder w); reflexivity.
  - destruct (nth_error (recorders w) r); cbn [fst]; [|reflexivity].
    unfold ondataavailable.
    destruct (Nat.ltb 0 (List.length (VoiceFrontend.blob_bytes data)));
      reflexivity.
  - destruct (nth_error (recorders w) r) as [m|]; [|reflexivity].
    destruct (onstop m); cbn [fst onstopHandler]; [|reflexivity].
    apply C; reflexivity.
  - destruct (nth_error (recorders w) r) as [m|]; [|reflexivity].
    destruct (onerror m); cbn [fst onerrorHandler]; [|reflexivity].
    apply C; reflexivity.
Qed.

Lemma only_held_stream_stopped_witness :
  live
    (fst (step
            (run fresh
               [callStart true (fun _ => true) "audio/webm" true true;
                callStart true (fun _ => true) "audio/webm" true true])
            callCancel)) 0
  = live
      (run fresh
         [callStart true (fun _ => true) "audio/webm" true true;
          callStart true (fun _ => true) "audio/webm" true true]) 0.
Proof.
  apply (only_held_stream_stopped
           (run fresh
              [callStart true (fun _ => true) "audio/webm" true true;
               callStart true (fun _ => true) "audio/webm" true true])
           callCancel 0).
  - simpl. lia.
  - simpl. discriminate.
Defined.

End RecordingFacts.

(** ** [formatMessage] on a text without content *)

Module FormatMessageBlankFacts.

Import FormatMessage.
Open Scope N_scope.
Open Scope list_scope.

Lemma dropWhile_all :
  forall p s, forallb p s = true -> dropWhile p s = [].
Proof.
  intros p s. induction s as [|c s IH]; simpl; [reflexivity|].
  intros H. apply andb_prop in H. destruct H as [Hc Hs].
  rewrite Hc. apply IH. exact Hs.
Qed.

Lemma trim_blank :
  forall s, forallb isWhiteSpace s = true -> trim s = [].
Proof.
  intros s H. unfold trim. rewrite (dropWhile_all _ _ H). reflexivity.
Qed.

Lemma splitLines_blank :
  forall s,
    forallb isWhiteSpace s = true ->
    Forall (fun l => forallb isWhiteSpace l = true) (splitLines s).
Proof.
  induction s as [|c s IH]; intros H.
  - repeat constructor.
  - simpl in H. apply andb_prop in H. destruct H as [Hc Hs].
    specialize (IH Hs). cbn [splitLines].
    destruct (c =? 10).
    + constructor; [reflexivity | exact IH].
    + destruct (splitLines s) as [|l ls].
      * repeat constructor. simpl. rewrite Hc. reflexivity.
      * inversion IH as [|? ? Hl Hls]; subst. constructor; [|exact Hls].
        simpl. rewrite Hc. exact Hl.
Qed.

Lemma formatLine_blank :
  forall lines,
    Forall (fun l => forallb isWhiteSpace l = true) lines ->
    fold_left formatLine lines ([], None) = ([], None).
Proof.
  induction lines as [|l lines IH]; intros H; [reflexivity|].
  inversion H as [|? ? Hl Hls]; subst. cbn [fold_left].
  assert (E : formatLine ([], None) l = ([], None)).
  { unfold formatLine. rewrite (trim_blank l Hl). reflexivity. }
  rewrite E. apply IH. exact Hls.
Qed.

(** A text made of white space only, line breaks included, is formatted to
    the empty string: every line is skipped before anything is pushed. *)
Theorem formatMessage_blank :
  forall text,
    forallb isWhiteSpace text = true ->
    formatMessage text = [].
Proof.
  intros text H. unfold formatMessage.
  destruct text as [|c text]; [reflexivity|].
  rewrite (formatLine_blank _ (splitLines_blank _ H)).
  reflexivity.
Qed.

Lemma formatMessage_blank_witness :
  formatMessage [32; 10; 9; 10; 10; 32] = [].
Proof.
  apply (formatMessage_blank [32; 10; 9; 10; 10; 32]). reflexivity.
Defined.

End FormatMessageBlankFacts.
